(** * OPD queue display (ESP32 + 16x2 I2C LCD): model of
      [OPD_Management/esp32_lcd_display/esp32_lcd_display.ino]

    The sketch is embedded function by function: [setup], [loop],
    [fetchAndDisplay] and [padRight].  Each call into the Arduino core or a
    library (LCD, serial port, WiFi, HTTP client) is recorded as an [event];
    what the outside answers (link status, clock, server) is read from a
    [World].  The ArduinoJson library is an interface ([ArduinoJson]), so
    every result holds for any implementation of it. *)

From Stdlib Require Import ZArith List String Ascii Bool Lia.
From Stdlib Require Import Floats.SpecFloat.
Import ListNotations.

Local Open Scope string_scope.
Local Open Scope Z_scope.

(** ** Arduino [String] *)

Module WString.

(** [s.substring(left, right)] of the Arduino core: the bounds are swapped
    when out of order, [right] is clipped to the length, and a [left] at or
    past the end gives the empty string. *)
Definition substring (left right : nat) (s : string) : string :=
  let lo := if (right <? left)%nat then right else left in
  let hi := if (right <? left)%nat then left else right in
  if (String.length s <=? lo)%nat then EmptyString
  else
    let hi := if (String.length s <? hi)%nat then String.length s else hi in
    String.substring lo (hi - lo) s.

Definition digit (d : Z) : ascii := ascii_of_nat (48 + Z.to_nat d).

(** Decimal digits of a non-negative number, most significant first. *)
Fixpoint utoa (fuel : nat) (n : Z) (acc : string) : string :=
  match fuel with
  | O => acc
  | S fuel' =>
      let acc' := String (digit (n mod 10)) acc in
      if n <? 10 then acc' else utoa fuel' (n / 10) acc'
  end.

(** Every division by ten removes at least one bit, so the binary length
    of [n] is enough fuel. *)
Definition digits (n : Z) : string := utoa (S (Z.to_nat (Z.log2 n))) n EmptyString.

(** [String(int)]: base ten, with a minus sign for negative values. *)
Definition of_int (z : Z) : string :=
  if z <? 0 then "-" ++ digits (- z) else digits z.

(** Reading a numeral back, for stating what [of_int] prints. *)
Definition digit_value (c : ascii) : Z := Z.of_nat (nat_of_ascii c) - 48.

Fixpoint value_from (acc : Z) (s : string) : Z :=
  match s with
  | EmptyString => acc
  | String c s' => value_from (10 * acc + digit_value c) s'
  end.

Definition value (s : string) : Z := value_from 0 s.

Definition is_digit (c : ascii) : bool :=
  (0 <=? digit_value c) && (digit_value c <=? 9).

Fixpoint all_digits (s : string) : bool :=
  match s with
  | EmptyString => true
  | String c s' => is_digit c && all_digits s'
  end.

End WString.

(** ** Utility: pad string to fixed length with spaces (lines 195-199) *)

(** [while (s.length() < (unsigned int)length) s += " ";] *)
Fixpoint padRight_while (fuel : nat) (s : string) (length : nat) : string :=
  match fuel with
  | O => s
  | S fuel' =>
      if (String.length s <? length)%nat
      then padRight_while fuel' (s ++ " ") length
      else s
  end.

Definition UINT_MAX : Z := 2 ^ 32 - 1.

(** The cast [(unsigned int)length] of an [int]. *)
Definition to_unsigned_int (z : Z) : nat := Z.to_nat (z mod (UINT_MAX + 1)).

Definition padRight (s : string) (length : Z) : string :=
  let n := to_unsigned_int length in
  let s := padRight_while n s n in
  if (n <? String.length s)%nat then WString.substring 0 n s else s.

(** ** C++ numbers *)

Definition INT_MIN : Z := - 2 ^ 31.
Definition INT_MAX : Z := 2 ^ 31 - 1.

(** [unsigned long] has 32 bits on the ESP32. *)
Definition ULONG_BITS : Z := 32.

Definition to_unsigned_long (z : Z) : Z := z mod 2 ^ ULONG_BITS.

(** Subtraction of two [unsigned long] values wraps around. *)
Definition ulong_sub (a b : Z) : Z := to_unsigned_long (a - b).

(** A [double] is a binary64 value and a [float] a binary32 value. *)
Definition double : Type := spec_float.
Definition float : Type := spec_float.

(** Initialising a [float] from a [double] rounds to the nearest binary32
    value. *)
Definition double_to_float (d : double) : float :=
  match d with
  | S754_finite s m e => binary_round 24 128 s m e
  | _ => d
  end.

(** A finite binary float is the fraction [float_num / float_den]. *)
Definition float_num (f : spec_float) : Z :=
  match f with
  | S754_finite s m e => cond_Zopp s (Z.pos m * 2 ^ Z.max e 0)
  | _ => 0
  end.

Definition float_den (f : spec_float) : Z :=
  match f with
  | S754_finite _ _ e => 2 ^ Z.max (- e) 0
  | _ => 1
  end.

Definition is_finite (f : spec_float) : bool :=
  match f with
  | S754_zero _ | S754_finite _ _ _ => true
  | _ => false
  end.

(** The fraction with its fractional part discarded; [Z.quot] rounds toward
    zero. *)
Definition truncate (f : spec_float) : Z := Z.quot (float_num f) (float_den f).

Definition fits_int (f : spec_float) : bool :=
  is_finite f && (INT_MIN <=? truncate f) && (truncate f <=? INT_MAX).

(** The cast [(int)f].  C++ defines it as truncation when the truncated
    value is an [int]; for every other [f] the result is whatever the target
    yields, [unrepresentable f]. *)
Definition float_to_int (unrepresentable : float -> Z) (f : float) : Z :=
  if fits_int f then truncate f else unrepresentable f.

(** ** Devices and libraries the sketch talks to *)

(** [wl_status_t], the values of [WiFi.status()]. *)
Inductive wl_status_t : Type :=
| WL_NO_SHIELD
| WL_IDLE_STATUS
| WL_NO_SSID_AVAIL
| WL_SCAN_COMPLETED
| WL_CONNECTED
| WL_CONNECT_FAILED
| WL_CONNECTION_LOST
| WL_DISCONNECTED.

Definition wl_status_eqb (a b : wl_status_t) : bool :=
  match a, b with
  | WL_NO_SHIELD, WL_NO_SHIELD
  | WL_IDLE_STATUS, WL_IDLE_STATUS
  | WL_NO_SSID_AVAIL, WL_NO_SSID_AVAIL
  | WL_SCAN_COMPLETED, WL_SCAN_COMPLETED
  | WL_CONNECTED, WL_CONNECTED
  | WL_CONNECT_FAILED, WL_CONNECT_FAILED
  | WL_CONNECTION_LOST, WL_CONNECTION_LOST
  | WL_DISCONNECTED, WL_DISCONNECTED => true
  | _, _ => false
  end.

(** [DeserializationError] of ArduinoJson 6; only [Ok] converts to
    [false]. *)
Inductive DeserializationError : Type :=
| Ok
| EmptyInput
| IncompleteInput
| InvalidInput
| NoMemory
| TooDeep.

Definition c_str (e : DeserializationError) : string :=
  match e with
  | Ok => "Ok"
  | EmptyInput => "EmptyInput"
  | IncompleteInput => "IncompleteInput"
  | InvalidInput => "InvalidInput"
  | NoMemory => "NoMemory"
  | TooDeep => "TooDeep"
  end.

(** [if (error)] *)
Definition failed (e : DeserializationError) : bool :=
  match e with
  | Ok => false
  | _ => true
  end.

(** The operations of ArduinoJson the sketch uses, with the C++ types of
    their results. *)
Class ArduinoJson : Type := {
  JsonVariant : Type;
  JsonObject : Type;
  (** [deserializeJson(doc, payload)] into a [StaticJsonDocument<capacity>]:
      the error code and the document *)
  deserializeJson : Z -> string -> DeserializationError * JsonVariant;
  (** [doc[key]] *)
  doc_member : JsonVariant -> string -> JsonVariant;
  (** [doc[key] == b] *)
  variant_eq_bool : JsonVariant -> bool -> bool;
  (** [JsonObject data = v;] *)
  as_JsonObject : JsonVariant -> JsonObject;
  (** [data[key]] *)
  member : JsonObject -> string -> JsonVariant;
  (** [v.isNull()] *)
  isNull : JsonVariant -> bool;
  (** [(int)v] *)
  as_int : JsonVariant -> Z;
  (** [v | dflt] at [double], [int] and [const char*] *)
  or_double : JsonVariant -> double -> double;
  or_int : JsonVariant -> Z -> Z;
  or_cstr : JsonVariant -> string -> string
}.

(** Every call that acts on the outside, in program order. *)
Inductive event : Type :=
| Serial_begin (baud : Z)
| Serial_print (s : string)
| Serial_println (s : string)
| lcd_init
| lcd_backlight
| lcd_clear
| lcd_setCursor (col row : Z)
| lcd_print (s : string)
| WiFi_begin (ssid password : string)
| delay (ms : Z)
| http_begin (url : string)
| http_setTimeout (ms : Z)
| http_GET
| http_getString
| http_end.

(** What the outside answers.  The k-th call of [WiFi.status()] returns
    [WiFi_status k], the k-th [millis()] returns [millis k], and the k-th
    request gets the status code [GET k] and the body [getString k]. *)
Record World : Type := {
  WiFi_status : nat -> wl_status_t;
  WiFi_localIP : string;
  millis : nat -> Z;
  GET : nat -> Z;
  getString : nat -> string
}.

(** The sketch's only global variable, the number of questions asked of the
    world so far, and the events so far (oldest first). *)
Record Device : Type := {
  lastPollTime : Z;
  status_calls : nat;
  millis_calls : nat;
  requests : nat;
  trace : list event
}.

(** [unsigned long lastPollTime = 0;] *)
Definition power_on : Device :=
  {| lastPollTime := 0; status_calls := 0; millis_calls := 0; requests := 0;
     trace := [] |}.

(** ** A state monad over [Device] *)

Definition M (A : Type) : Type := Device -> A * Device.

Definition ret {A : Type} (a : A) : M A := fun d => (a, d).

Definition bind {A B : Type} (m : M A) (k : A -> M B) : M B :=
  fun d => let '(a, d') := m d in k a d'.

Declare Scope sketch_scope.
Delimit Scope sketch_scope with sketch.
Notation "x <- m ;; k" := (bind m (fun x => k))
  (at level 61, m at next level, right associativity) : sketch_scope.
Notation "m ;; k" := (bind m (fun _ => k))
  (at level 61, right associativity) : sketch_scope.
Local Open Scope sketch_scope.

Definition emit (e : event) : M unit :=
  fun d =>
    (tt, {| lastPollTime := lastPollTime d; status_calls := status_calls d;
            millis_calls := millis_calls d; requests := requests d;
            trace := trace d ++ [e] |}).

Definition get_lastPollTime : M Z := fun d => (lastPollTime d, d).

Definition set_lastPollTime (t : Z) : M unit :=
  fun d =>
    (tt, {| lastPollTime := t; status_calls := status_calls d;
            millis_calls := millis_calls d; requests := requests d;
            trace := trace d |}).

Definition exec {A : Type} (m : M A) (d : Device) : Device := snd (m d).
Definition result {A : Type} (m : M A) (d : Device) : A := fst (m d).

(** The events a computation adds to a trace that was empty. *)
Definition events {A : Type} (m : M A) : list event := trace (exec m power_on).

(** The strings handed to [lcd.print], in order. *)
Fixpoint lcd_prints (t : list event) : list string :=
  match t with
  | [] => []
  | lcd_print s :: t' => s :: lcd_prints t'
  | _ :: t' => lcd_prints t'
  end.

(** Events of the HTTP client. *)
Definition is_network (e : event) : bool :=
  match e with
  | http_begin _ | http_setTimeout _ | http_GET | http_getString | http_end => true
  | _ => false
  end.

(** ** CONFIG (lines 37-50) *)

Definition WIFI_SSID : string := "YOUR_WIFI_SSID".
Definition WIFI_PASSWORD : string := "YOUR_WIFI_PASSWORD".
Definition SERVER_IP : string := "http://192.168.X.X:5000".
Definition DOCTOR_ID : Z := 1.
Definition POLL_INTERVAL : Z := 5000.

(** ** The sketch *)

Section Sketch.

Context {J : ArduinoJson}.
Variable unrepresentable : float -> Z.
Variable world : World.

(** [WiFi.status()] *)
Definition WiFi_status_call : M wl_status_t :=
  fun d =>
    (WiFi_status world (status_calls d),
     {| lastPollTime := lastPollTime d; status_calls := S (status_calls d);
        millis_calls := millis_calls d; requests := requests d;
        trace := trace d |}).

(** [millis()]: the milliseconds since power-on, as an [unsigned long]. *)
Definition millis_call : M Z :=
  fun d =>
    (to_unsigned_long (millis world (millis_calls d)),
     {| lastPollTime := lastPollTime d; status_calls := status_calls d;
        millis_calls := S (millis_calls d); requests := requests d;
        trace := trace d |}).

(** [http.GET()] and [http.getString()] of the request in progress. *)
Definition http_GET_call : M Z :=
  fun d => (GET world (requests d), snd (emit http_GET d)).

Definition http_getString_call : M string :=
  fun d => (getString world (requests d), snd (emit http_getString d)).

(** [http.end()] closes the request. *)
Definition http_end_call : M unit :=
  fun d =>
    (tt, {| lastPollTime := lastPollTime d; status_calls := status_calls d;
            millis_calls := millis_calls d; requests := S (requests d);
            trace := trace d ++ [http_end] |}).

(** Lines 151-159: the first LCD line. *)
Definition build_line1 (status : string) (currentToken : Z) : string :=
  if (status =? "consulting")%string && (0 <? currentToken) then
    let line1 := "NOW: #" in
    if currentToken <? 10 then line1 ++ ("00" ++ WString.of_int currentToken)
    else if currentToken <? 100 then line1 ++ ("0" ++ WString.of_int currentToken)
    else line1 ++ WString.of_int currentToken
  else "QUEUE IDLE".

(** Line 162: the second LCD line. *)
Definition build_line2 (estimatedWait : float) : string :=
  "Wait: ~" ++ WString.of_int (float_to_int unrepresentable estimatedWait) ++ " min".

(** Lines 143-146: the fields read from [data]. *)
Definition read_currentToken (data : JsonObject) : Z :=
  if isNull (member data "current_token") then -1
  else as_int (member data "current_token").

Definition read_estimatedWait (data : JsonObject) : float :=
  double_to_float (or_double (member data "estimated_wait_min") (S754_zero false)).

Definition read_waitingCount (data : JsonObject) : Z :=
  or_int (member data "waiting_count") 0.

Definition read_status (data : JsonObject) : string :=
  or_cstr (member data "status") "idle".

(** Lines 115-192. *)
Definition fetchAndDisplay : M unit :=
  st <- WiFi_status_call ;;
  if negb (wl_status_eqb st WL_CONNECTED) then
    emit lcd_clear ;;
    emit (lcd_setCursor 0 0) ;;
    emit (lcd_print "WiFi Lost...")
  else
    let url := SERVER_IP ++ "/api/display/current?doctor_id=" ++ WString.of_int DOCTOR_ID in
    emit (http_begin url) ;;
    emit (http_setTimeout 4000) ;;
    statusCode <- http_GET_call ;;
    (if statusCode =? 200 then
       payload <- http_getString_call ;;
       emit (Serial_println ("Response: " ++ payload)) ;;
       let '(error, doc) := deserializeJson 256 payload in
       if negb (failed error) && variant_eq_bool (doc_member doc "success") true then
         let data := as_JsonObject (doc_member doc "data") in
         let currentToken := read_currentToken data in
         let estimatedWait := read_estimatedWait data in
         let waitingCount := read_waitingCount data in
         let status := read_status data in
         let line1 := build_line1 status currentToken in
         let line2 := build_line2 estimatedWait in
         emit lcd_clear ;;
         emit (lcd_setCursor 0 0) ;;
         emit (lcd_print (padRight line1 16)) ;;
         emit (lcd_setCursor 0 1) ;;
         emit (lcd_print (padRight line2 16)) ;;
         emit (Serial_println ("LCD: [" ++ line1 ++ "] [" ++ line2 ++ "]"))
       else
         emit lcd_clear ;;
         emit (lcd_setCursor 0 0) ;;
         emit (lcd_print "Parse Error") ;;
         emit (Serial_println ("JSON Error: " ++ c_str error))
     else
       emit lcd_clear ;;
       emit (lcd_setCursor 0 0) ;;
       emit (lcd_print "Server Error") ;;
       emit (lcd_setCursor 0 1) ;;
       emit (lcd_print ("Code: " ++ WString.of_int statusCode)) ;;
       emit (Serial_println ("HTTP Error: " ++ WString.of_int statusCode))) ;;
    http_end_call.

(** Lines 104-112.  [POLL_INTERVAL] is an [int]; the comparison converts it
    to [unsigned long]. *)
Definition loop : M unit :=
  now <- millis_call ;;
  last <- get_lastPollTime ;;
  if to_unsigned_long POLL_INTERVAL <=? ulong_sub now last then
    set_lastPollTime now ;;
    fetchAndDisplay
  else ret tt.

(** Lines 77-82: [while (WiFi.status() != WL_CONNECTED && attempts < 30)].
    The result is the final value of [attempts]. *)
Fixpoint connect_while (fuel : nat) (attempts : Z) : M Z :=
  match fuel with
  | O => ret attempts
  | S fuel' =>
      st <- WiFi_status_call ;;
      if negb (wl_status_eqb st WL_CONNECTED) && (attempts <? 30) then
        emit (delay 500) ;;
        emit (Serial_print ".") ;;
        connect_while fuel' (attempts + 1)
      else ret attempts
  end.

(** Line 99: [while (true) { delay(1000); }].  The loop has no exit: after
    any number of rounds control is still inside it, which is the result
    [None]. *)
Fixpoint halt (rounds : nat) : M (option unit) :=
  match rounds with
  | O => ret None
  | S rounds' => emit (delay 1000) ;; halt rounds'
  end.

(** Lines 59-101.  [Some tt] when [setup] returns; [rounds] is how long the
    halt loop is watched.  The guard [attempts < 30] lets the connect loop
    test its condition 31 times at most. *)
Definition setup (rounds : nat) : M (option unit) :=
  emit (Serial_begin 115200) ;;
  emit lcd_init ;;
  emit lcd_backlight ;;
  emit lcd_clear ;;
  emit (lcd_setCursor 0 0) ;;
  emit (lcd_print "OPD Queue System") ;;
  emit (lcd_setCursor 0 1) ;;
  emit (lcd_print "Connecting WiFi.") ;;
  emit (WiFi_begin WIFI_SSID WIFI_PASSWORD) ;;
  emit (Serial_print "Connecting to WiFi") ;;
  _ <- connect_while 31 0 ;;
  st <- WiFi_status_call ;;
  if wl_status_eqb st WL_CONNECTED then
    emit (Serial_println (String "010" "Connected! IP: " ++ WiFi_localIP world)) ;;
    emit lcd_clear ;;
    emit (lcd_setCursor 0 0) ;;
    emit (lcd_print "WiFi Connected!") ;;
    emit (lcd_setCursor 0 1) ;;
    emit (lcd_print (WiFi_localIP world)) ;;
    emit (delay 2000) ;;
    ret (Some tt)
  else
    emit (Serial_println (String "010" "WiFi FAILED")) ;;
    emit lcd_clear ;;
    emit (lcd_setCursor 0 0) ;;
    emit (lcd_print "WiFi Failed!") ;;
    emit (lcd_setCursor 0 1) ;;
    emit (lcd_print "Check config...") ;;
    halt rounds.

(** The Arduino core runs [setup()] once and then [loop()] again and again;
    [rounds] bounds how many rounds are watched. *)
Fixpoint loop_forever (rounds : nat) : M unit :=
  match rounds with
  | O => ret tt
  | S rounds' => loop ;; loop_forever rounds'
  end.

Definition main (rounds : nat) : M unit :=
  r <- setup rounds ;;
  match r with
  | Some _ => loop_forever rounds
  | None => ret tt
  end.

End Sketch.

(** ** A small implementation of the JSON interface, to run the sketch *)

Inductive json : Type :=
| JNull
| JBool (b : bool)
| JInt (z : Z)
| JFloat (d : double)
| JString (s : string)
| JArray (l : list json)
| JObject (l : list (string * json)).

Fixpoint lookup (key : string) (l : list (string * json)) : json :=
  match l with
  | [] => JNull
  | (k, v) :: l' => if (k =? key)%string then v else lookup key l'
  end.

Definition members (v : json) : list (string * json) :=
  match v with
  | JObject l => l
  | _ => []
  end.

Definition json_is_null (v : json) : bool :=
  match v with
  | JNull => true
  | _ => false
  end.

Definition json_eq_bool (v : json) (b : bool) : bool :=
  match v with
  | JBool b' => Bool.eqb b' b
  | _ => false
  end.

Definition is_int (z : Z) : bool := (INT_MIN <=? z) && (z <=? INT_MAX).

Definition json_as_int (v : json) : Z :=
  match v with
  | JBool b => if b then 1 else 0
  | JInt z => if is_int z then z else 0
  | JFloat d => if fits_int d then truncate d else 0
  | _ => 0
  end.

Definition json_or_double (v : json) (dflt : double) : double :=
  match v with
  | JInt z => binary_normalize 53 1024 z 0 false
  | JFloat d => d
  | _ => dflt
  end.

Definition json_or_int (v : json) (dflt : Z) : Z :=
  match v with
  | JInt z => if is_int z then z else dflt
  | _ => dflt
  end.

Definition json_or_cstr (v : json) (dflt : string) : string :=
  match v with
  | JString s => s
  | _ => dflt
  end.

(** The parser is a table from response bodies to documents; a body that is
    not in the table is invalid input. *)
Fixpoint parse (table : list (string * json)) (payload : string)
  : DeserializationError * json :=
  match table with
  | [] => (InvalidInput, JNull)
  | (body, doc) :: table' =>
      if (body =? payload)%string then (Ok, doc) else parse table' payload
  end.

Definition TableJson (table : list (string * json)) : ArduinoJson :=
  {| JsonVariant := json;
     JsonObject := list (string * json);
     deserializeJson := fun _ payload => parse table payload;
     doc_member := fun v key => lookup key (members v);
     variant_eq_bool := json_eq_bool;
     as_JsonObject := members;
     member := fun data key => lookup key data;
     isNull := json_is_null;
     as_int := json_as_int;
     or_double := json_or_double;
     or_int := json_or_int;
     or_cstr := json_or_cstr |}.

(** The binary64 value nearest to [n / 10], as a parser reads one decimal
    place. *)
Definition tenths (n : Z) : double :=
  SFdiv 53 1024 (binary_normalize 53 1024 n 0 false)
                (binary_normalize 53 1024 10 0 false).

(** Responses of the server used in the examples. *)
Definition response (token : json) (wait : json) (count : json) (status : json) : json :=
  JObject [("success", JBool true);
           ("data", JObject [("current_token", token);
                             ("estimated_wait_min", wait);
                             ("waiting_count", count);
                             ("status", status)])].

Definition sample_table : list (string * json) :=
  [("consulting 7", response (JInt 7) (JFloat (tenths 243)) (JInt 3) (JString "consulting"));
   ("consulting 7, 9 waiting", response (JInt 7) (JFloat (tenths 243)) (JInt 9) (JString "consulting"));
   ("idle", response JNull (JInt 5) JNull (JString "idle"));
   ("wait 23.9", response JNull (JFloat (tenths 239)) JNull JNull);
   ("refused", JObject [("success", JBool false)])].

(** The target's answer for an undefined cast in the examples. *)
Definition saturate (f : float) : Z := INT_MAX.

(** A world whose link has the same status at every call and whose server
    always gives the same answer. *)
Definition steady_world (link : wl_status_t) (code : Z) (body : string) : World :=
  {| WiFi_status := fun _ => link;
     WiFi_localIP := "192.168.1.23";
     millis := fun k => 1000 * Z.of_nat k;
     GET := fun _ => code;
     getString := fun _ => body |}.

(** A world that is read [millis()] first shortly before the 32-bit counter
    wraps and then 6000 ms later. *)
Definition wrapping_world : World :=
  {| WiFi_status := fun _ => WL_CONNECTED;
     WiFi_localIP := "192.168.1.23";
     millis := fun k => 2 ^ 32 - 1000 + 6000 * Z.of_nat k;
     GET := fun _ => 200;
     getString := fun _ => "idle" |}.

Definition sample_json : ArduinoJson := TableJson sample_table.

(** A device that polled last 1000 ms before the counter wraps and has read
    the clock once. *)
Definition before_wrap : Device :=
  {| lastPollTime := 2 ^ 32 - 1000; status_calls := 1; millis_calls := 1;
     requests := 1; trace := [] |}.

(** A target that answers an undefined cast with the smallest [int]. *)
Definition indefinite (f : float) : Z := INT_MIN.

(** A server that reports the largest [int] as the wait.  As a [float] it is
    2147483648, one more than an [int] can hold. *)
Definition overflow_table : list (string * json) :=
  [("wait 2147483647", response JNull (JInt 2147483647) JNull (JString "idle"))].

Definition overflow_json : ArduinoJson := TableJson overflow_table.

(** ** Vocabulary of the statements *)

Fixpoint spaces (n : nat) : string :=
  match n with
  | O => EmptyString
  | S n' => String " " (spaces n')
  end.

Definition first_char (s : string) : option ascii :=
  match s with
  | EmptyString => None
  | String c _ => Some c
  end.

(** [s] is the base-ten numeral of [n], without sign. *)
Definition numeral (s : string) (n : Z) : Prop :=
  WString.all_digits s = true /\ WString.value s = n.

(** The events one run of a computation adds to the trace, and the strings it
    hands to the LCD. *)
Definition added {A : Type} (m : M A) (d : Device) : list event :=
  skipn (List.length (trace d)) (trace (exec m d)).

Definition shown {A : Type} (m : M A) (d : Device) : list string :=
  lcd_prints (added m d).

(** The device after [millis()] was read and [lastPollTime] set to the
    reading. *)
Definition polled_at (now : Z) (d : Device) : Device :=
  {| lastPollTime := now; status_calls := status_calls d;
     millis_calls := S (millis_calls d); requests := requests d;
     trace := trace d |}.

(** The device after [millis()] was read and nothing else happened. *)
Definition ticked (d : Device) : Device :=
  {| lastPollTime := lastPollTime d; status_calls := status_calls d;
     millis_calls := S (millis_calls d); requests := requests d;
     trace := trace d |}.

(** What the welcome screen, the connect loop after thirty refused attempts
    and the failure screen leave on the trace. *)
Fixpoint attempts_trace (n : nat) : list event :=
  match n with
  | O => []
  | S n' => delay 500 :: Serial_print "." :: attempts_trace n'
  end.

Definition welcome_trace : list event :=
  [Serial_begin 115200; lcd_init; lcd_backlight; lcd_clear;
   lcd_setCursor 0 0; lcd_print "OPD Queue System";
   lcd_setCursor 0 1; lcd_print "Connecting WiFi.";
   WiFi_begin WIFI_SSID WIFI_PASSWORD; Serial_print "Connecting to WiFi"].

Definition failure_trace : list event :=
  [Serial_println (String "010" "WiFi FAILED"); lcd_clear;
   lcd_setCursor 0 0; lcd_print "WiFi Failed!";
   lcd_setCursor 0 1; lcd_print "Check config..."].

(** The traces of the four ways through [fetchAndDisplay]. *)
Definition request_url : string :=
  SERVER_IP ++ "/api/display/current?doctor_id=" ++ WString.of_int DOCTOR_ID.

Definition link_down_trace : list event :=
  [lcd_clear; lcd_setCursor 0 0; lcd_print "WiFi Lost..."].

Definition request_trace : list event :=
  [http_begin request_url; http_setTimeout 4000; http_GET].

Definition server_error_trace (statusCode : Z) : list event :=
  request_trace ++
  [lcd_clear; lcd_setCursor 0 0; lcd_print "Server Error";
   lcd_setCursor 0 1; lcd_print ("Code: " ++ WString.of_int statusCode);
   Serial_println ("HTTP Error: " ++ WString.of_int statusCode);
   http_end].

Definition parse_error_trace (payload : string) (error : DeserializationError)
  : list event :=
  request_trace ++
  [http_getString; Serial_println ("Response: " ++ payload);
   lcd_clear; lcd_setCursor 0 0; lcd_print "Parse Error";
   Serial_println ("JSON Error: " ++ c_str error);
   http_end].

Definition frame_trace (payload line1 line2 : string) : list event :=
  request_trace ++
  [http_getString; Serial_println ("Response: " ++ payload);
   lcd_clear; lcd_setCursor 0 0; lcd_print (padRight line1 16);
   lcd_setCursor 0 1; lcd_print (padRight line2 16);
   Serial_println ("LCD: [" ++ line1 ++ "] [" ++ line2 ++ "]");
   http_end].

(** Line 140: the document is used when parsing succeeded and its
    [success] member is [true]. *)
Definition accepted {J : ArduinoJson} (payload : string) : bool :=
  let '(error, doc) := deserializeJson 256 payload in
  negb (failed error) && variant_eq_bool (doc_member doc "success") true.

(** Line 141: [doc["data"]] of the parsed payload. *)
Definition data_of {J : ArduinoJson} (payload : string) : JsonObject :=
  as_JsonObject (doc_member (snd (deserializeJson 256 payload)) "data").

(** The device after one run of [fetchAndDisplay] that made a request. *)
Definition after_request (d : Device) (t : list event) : Device :=
  {| lastPollTime := lastPollTime d; status_calls := S (status_calls d);
     millis_calls := millis_calls d; requests := S (requests d);
     trace := trace d ++ t |}.

(** The device after one run of [fetchAndDisplay] that found the link
    down. *)
Definition after_link_down (d : Device) : Device :=
  {| lastPollTime := lastPollTime d; status_calls := S (status_calls d);
     millis_calls := millis_calls d; requests := requests d;
     trace := trace d ++ link_down_trace |}.

(** [line] is [s] left-justified in [width] columns: padded with spaces
    when shorter, cut when longer. *)
Definition fitted (width : nat) (s line : string) : Prop :=
  String.length line = width /\
  ((String.length s <= width)%nat -> line = s ++ spaces (width - String.length s)) /\
  ((width < String.length s)%nat -> line = String.substring 0 width s).

Definition every_line_16 (lines : list string) : Prop :=
  Forall (fun s => String.length s = 16%nat) lines.

Definition server_error_shown (statusCode : Z) (lines : list string) : Prop :=
  lines = ["Server Error"; "Code: " ++ WString.of_int statusCode].

Definition parse_error_shown (lines : list string) : Prop :=
  lines = ["Parse Error"].

Definition is_2xx (statusCode : Z) : Prop := 200 <= statusCode <= 299.

Definition no_network (t : list event) : Prop :=
  forallb (fun e => negb (is_network e)) t = true.

(** The device that has given up on the link and sits in the halt loop. *)
Definition halted (rounds : nat) : Device :=
  {| lastPollTime := 0; status_calls := 32; millis_calls := 0; requests := 0;
     trace := welcome_trace ++ attempts_trace 30 ++ failure_trace
              ++ repeat (delay 1000) rounds |}.

(** Events of the LCD. *)
Definition is_lcd (e : event) : bool :=
  match e with
  | lcd_init | lcd_backlight | lcd_clear | lcd_setCursor _ _ | lcd_print _ => true
  | _ => false
  end.

(** A trace uses the HTTP client in order: a request is begun only when none
    is open, the timeout, [GET] and [getString] happen inside an open request,
    and [end] closes it.  [open] tells whether a request is open before the
    trace; at the end none is. *)
Fixpoint well_bracketed (open : bool) (t : list event) : bool :=
  match t with
  | [] => negb open
  | http_begin _ :: t' => negb open && well_bracketed true t'
  | http_end :: t' => open && well_bracketed false t'
  | http_setTimeout _ :: t' => open && well_bracketed open t'
  | http_GET :: t' => open && well_bracketed open t'
  | http_getString :: t' => open && well_bracketed open t'
  | _ :: t' => well_bracketed open t'
  end.

(** What [setup] leaves on the trace after the connect loop when the link is
    up. *)
Definition connected_trace (ip : string) : list event :=
  [Serial_println (String "010" "Connected! IP: " ++ ip); lcd_clear;
   lcd_setCursor 0 0; lcd_print "WiFi Connected!";
   lcd_setCursor 0 1; lcd_print ip; delay 2000].

(** A world whose link is refused at the first [up_from] tests and up from
    then on, except at the tests listed in [drops]. *)
Definition late_world (up_from : nat) (drops : list nat) : World :=
  {| WiFi_status := fun k =>
       if (k <? up_from)%nat || existsb (Nat.eqb k) drops
       then WL_DISCONNECTED else WL_CONNECTED;
     WiFi_localIP := "192.168.1.23";
     millis := fun k => 2000 + 1000 * Z.of_nat k;
     GET := fun _ => 200;
     getString := fun _ => "idle" |}.

(** A device that has not polled yet and has read the clock [n] times. *)
Definition after_ticks (n : nat) : Device :=
  {| lastPollTime := 0; status_calls := 2; millis_calls := n; requests := 0;
     trace := [] |}.

(** ** The bed table and its trigger ([smart_bed/database/RD.sql]) *)

Module Beds.

(** A [TIMESTAMP WITH TIME ZONE], in microseconds. *)
Definition timestamp : Type := Z.

(** A row of [beds].  Every column but the primary key may be [NULL]. *)
Record bed : Type := {
  id : string;
  status : option string;
  weight : option double;
  allotted_at : option timestamp;
  vacated_at : option timestamp;
  updated_at : option timestamp
}.

(** The columns of a row of [pesticide_logs] the trigger reads.  The table
    is declared elsewhere; its [weight] is taken at the type of the column it
    is copied to. *)
Record log : Type := {
  log_weight : option double;
  log_status : option string
}.

(** [a = b] of SQL on text: [NULL] when the column is [NULL], which an [IF]
    or a [WHERE] treats as false. *)
Definition text_is (a : option string) (b : string) : bool :=
  match a with
  | Some a' => (a' =? b)%string
  | None => false
  end.

(** [UPDATE beds SET ... WHERE id = key]: every row with that key is
    replaced by [set] of it. *)
Definition update_where_id (key : string) (set : bed -> bed) (beds : list bed)
  : list bed :=
  map (fun row => if (id row =? key)%string then set row else row) beds.

(** Lines 27-50.  [now] is the value of [timezone('utc', now())], the same
    all through the inserting transaction.  The result is the table after the
    trigger and the row it returns. *)
Definition sync_bed_status (now : timestamp) (NEW : log) (beds : list bed)
  : list bed * log :=
  if text_is (log_status NEW) "occupied" then
    (update_where_id "bed_01"
       (fun row =>
          {| id := id row;
             status := Some "occupied";
             weight := log_weight NEW;
             allotted_at := Some now;
             vacated_at := None;
             updated_at := Some now |})
       beds,
     NEW)
  else if text_is (log_status NEW) "empty" then
    (update_where_id "bed_01"
       (fun row =>
          {| id := id row;
             status := Some "empty";
             weight := log_weight NEW;
             allotted_at := allotted_at row;
             vacated_at := Some now;
             updated_at := Some now |})
       beds,
     NEW)
  else (beds, NEW).

(** Lines 54-57: the trigger runs after every insert into [pesticide_logs],
    once per row. *)
Definition on_new_log (now : timestamp) (NEW : log) (beds : list bed) : list bed :=
  fst (sync_bed_status now NEW beds).

(** Lines 11-13: [INSERT INTO beds (id, status, weight) VALUES ('bed_01',
    'empty', 0) ON CONFLICT (id) DO NOTHING]; the columns left out take their
    defaults. *)
Definition seed (now : timestamp) (beds : list bed) : list bed :=
  if existsb (fun row => (id row =? "bed_01")%string) beds then beds
  else beds ++ [{| id := "bed_01"; status := Some "empty";
                   weight := Some (S754_zero false);
                   allotted_at := None; vacated_at := None;
                   updated_at := Some now |}].

(** [SELECT * FROM beds WHERE id = key] on a table whose key is unique. *)
Definition select_id (key : string) (beds : list bed) : option bed :=
  find (fun row => (id row =? key)%string) beds.

End Beds.

(** * Properties *)

(** ** Strings *)

Lemma length_append (s t : string) :
  String.length (s ++ t) = (String.length s + String.length t)%nat.
Proof.
  induction s as [|c s IH]; simpl; [reflexivity | now rewrite IH].
Qed.

Lemma append_nil_r (s : string) : s ++ EmptyString = s.
Proof.
  induction s as [|c s IH]; simpl; [reflexivity | now rewrite IH].
Qed.

Lemma append_assoc (s t u : string) : (s ++ t) ++ u = s ++ (t ++ u).
Proof.
  induction s as [|c s IH]; simpl; [reflexivity | now rewrite IH].
Qed.

Lemma length_spaces (n : nat) : String.length (spaces n) = n.
Proof.
  induction n as [|n IH]; simpl; [reflexivity | now rewrite IH].
Qed.

Lemma spaces_snoc (n : nat) : spaces n ++ " " = spaces (S n).
Proof.
  induction n as [|n IH]; simpl; [reflexivity | now rewrite IH].
Qed.

Lemma length_substring_0 (m : nat) (s : string) :
  (m <= String.length s)%nat -> String.length (String.substring 0 m s) = m.
Proof.
  revert s; induction m as [|m IH]; intros [|c s] H; simpl in *;
    try reflexivity; try lia.
  rewrite IH; [reflexivity | lia].
Qed.

(** ** [padRight] *)

(** The loop stops through its own test whenever the fuel covers the missing
    characters. *)
Lemma padRight_while_spec (fuel : nat) (s : string) (n : nat) :
  (n - String.length s <= fuel)%nat ->
  padRight_while fuel s n = s ++ spaces (n - String.length s).
Proof.
  revert s; induction fuel as [|fuel IH]; intros s H; simpl.
  - replace (n - String.length s)%nat with 0%nat by lia.
    simpl; now rewrite append_nil_r.
  - destruct (Nat.ltb_spec (String.length s) n) as [Hlt|Hge].
    + rewrite IH by (rewrite length_append; simpl; lia).
      rewrite length_append; simpl.
      replace (n - String.length s)%nat
        with (S (n - (String.length s + 1)))%nat by lia.
      now rewrite append_assoc.
    + replace (n - String.length s)%nat with 0%nat by lia.
      simpl; now rewrite append_nil_r.
Qed.

Lemma to_unsigned_int_small (n : Z) :
  0 <= n <= UINT_MAX -> to_unsigned_int n = Z.to_nat n.
Proof.
  intros H; unfold to_unsigned_int; rewrite Z.mod_small; [reflexivity | lia].
Qed.

Lemma padRight_short (s : string) (n : Z) :
  0 <= n <= UINT_MAX -> (String.length s <= Z.to_nat n)%nat ->
  padRight s n = s ++ spaces (Z.to_nat n - String.length s).
Proof.
  intros Hn Hs; unfold padRight.
  rewrite (to_unsigned_int_small n Hn).
  rewrite padRight_while_spec by lia.
  destruct (Nat.ltb_spec (Z.to_nat n)
              (String.length (s ++ spaces (Z.to_nat n - String.length s))))
    as [Hlt|_]; [|reflexivity].
  rewrite length_append, length_spaces in Hlt; lia.
Qed.

Lemma padRight_long (s : string) (n : Z) :
  0 <= n <= UINT_MAX -> (Z.to_nat n < String.length s)%nat ->
  padRight s n = String.substring 0 (Z.to_nat n) s.
Proof.
  intros Hn Hs; unfold padRight.
  rewrite (to_unsigned_int_small n Hn).
  rewrite padRight_while_spec by lia.
  replace (Z.to_nat n - String.length s)%nat with 0%nat by lia.
  simpl; rewrite append_nil_r.
  destruct (Nat.ltb_spec (Z.to_nat n) (String.length s)) as [_|Hge]; [|lia].
  unfold WString.substring; simpl.
  destruct (String.length s) as [|k] eqn:E; [lia|].
  simpl.
  destruct (Nat.ltb_spec (S k) (Z.to_nat n)) as [Hlt|_]; [lia|].
  now rewrite Nat.sub_0_r.
Qed.

Lemma padRight_length (s : string) (n : Z) :
  0 <= n <= UINT_MAX -> String.length (padRight s n) = Z.to_nat n.
Proof.
  intros Hn.
  destruct (Nat.le_gt_cases (String.length s) (Z.to_nat n)) as [Hle|Hgt].
  - rewrite padRight_short by assumption.
    rewrite length_append, length_spaces; lia.
  - rewrite padRight_long by assumption.
    apply length_substring_0; lia.
Qed.

Lemma padRight_16_length (s : string) : String.length (padRight s 16) = 16%nat.
Proof.
  rewrite padRight_length; [reflexivity | unfold UINT_MAX; lia].
Qed.

(** ** [String(int)] *)

Lemma digit_spec (d : Z) :
  0 <= d <= 9 ->
  WString.digit_value (WString.digit d) = d /\
  WString.is_digit (WString.digit d) = true.
Proof.
  intros H.
  assert (E : d = 0 \/ d = 1 \/ d = 2 \/ d = 3 \/ d = 4 \/ d = 5 \/ d = 6 \/
              d = 7 \/ d = 8 \/ d = 9) by lia.
  repeat (destruct E as [E|E]; [subst d; split; reflexivity|]).
  subst d; split; reflexivity.
Qed.

Lemma value_from_app (s t : string) (a : Z) :
  WString.value_from a (s ++ t) = WString.value_from (WString.value_from a s) t.
Proof.
  revert a; induction s as [|c s IH]; intros a; simpl; [reflexivity | apply IH].
Qed.

Lemma all_digits_app (s t : string) :
  WString.all_digits (s ++ t) = WString.all_digits s && WString.all_digits t.
Proof.
  induction s as [|c s IH]; simpl; [reflexivity|].
  now rewrite IH, andb_assoc.
Qed.

Lemma first_char_app (s t : string) :
  (1 <= String.length s)%nat -> first_char (s ++ t) = first_char s.
Proof.
  destruct s; simpl; [lia | reflexivity].
Qed.

(** What the digit loop returns when the fuel covers the binary length of
    [n]: the numeral of [n] in front of the accumulator, of the right length
    and without a leading zero. *)
Lemma utoa_spec (fuel : nat) :
  forall (n : Z) (acc : string),
    (1 <= fuel)%nat -> 0 <= n < 2 ^ Z.of_nat fuel ->
    exists s,
      WString.utoa fuel n acc = s ++ acc /\
      WString.all_digits s = true /\
      (forall a, WString.value_from a s = a * 10 ^ Z.of_nat (String.length s) + n) /\
      (1 <= String.length s)%nat /\
      n < 10 ^ Z.of_nat (String.length s) /\
      (0 < n -> 10 ^ (Z.of_nat (String.length s) - 1) <= n /\
                first_char s <> Some "0"%char).
Proof.
  induction fuel as [|fuel IH]; intros n acc Hfuel Hn.
  - lia.
  - cbn [WString.utoa].
    destruct (Z.ltb_spec n 10) as [Hlt|Hge].
    + rewrite Z.mod_small by lia.
      destruct (digit_spec n ltac:(lia)) as [Hv Hd].
      exists (String (WString.digit n) EmptyString).
      cbn [String.append String.length WString.all_digits WString.value_from
             first_char Z.of_nat Pos.of_succ_nat].
      change (10 ^ 1) with 10; change (10 ^ (1 - 1)) with 1.
      rewrite Hd, Hv.
      split; [reflexivity|]; split; [reflexivity|].
      split; [intros a; lia|]; split; [lia|]; split; [lia|].
      intros Hpos; split; [lia|].
      intros E; injection E as E.
      rewrite E in Hv; vm_compute in Hv; lia.
    + assert (Hq : 0 <= n / 10 < 2 ^ Z.of_nat fuel).
      { rewrite Nat2Z.inj_succ, Z.pow_succ_r in Hn by lia.
        split; [apply Z.div_pos; lia|].
        apply Z.div_lt_upper_bound; lia. }
      assert (Hfuel' : (1 <= fuel)%nat).
      { destruct fuel as [|fuel']; [|lia].
        change (2 ^ Z.of_nat 0) with 1 in Hq.
        assert (1 <= n / 10) by (apply Z.div_le_lower_bound; lia).
        lia. }
      destruct (IH (n / 10) (String (WString.digit (n mod 10)) acc) Hfuel' Hq)
        as (s & Hs & Hall & Hval & Hlen & Hub & Hlb).
      assert (Hm : 0 <= n mod 10 <= 9) by (pose proof (Z.mod_pos_bound n 10); lia).
      destruct (digit_spec (n mod 10) Hm) as [Hv Hd].
      pose proof (Z.div_mod n 10 ltac:(lia)) as Hdm.
      assert (Hpos : 0 < n / 10) by (apply Z.div_str_pos; lia).
      destruct (Hlb Hpos) as [Hlow Hfirst].
      set (c := WString.digit (n mod 10)) in *.
      set (q := n / 10) in *.
      set (r := n mod 10) in *.
      exists (s ++ String c EmptyString).
      assert (Hl : Z.of_nat (String.length (s ++ String c EmptyString))
                   = Z.succ (Z.of_nat (String.length s))).
      { rewrite length_append; cbn [String.length]; lia. }
      rewrite Hl, Z.pow_succ_r by lia.
      set (L := Z.of_nat (String.length s)) in *.
      assert (HL : 10 ^ L = 10 * 10 ^ (L - 1)).
      { rewrite <- Z.pow_succ_r by lia. f_equal; lia. }
      set (P := 10 ^ L) in *.
      set (P' := 10 ^ (L - 1)) in *.
      split; [rewrite Hs, append_assoc; reflexivity|].
      split; [rewrite all_digits_app, Hall; cbn [WString.all_digits]; now rewrite Hd|].
      split.
      { intros a; rewrite value_from_app, Hval; cbn [WString.value_from].
        rewrite Hv; lia. }
      split; [rewrite length_append; cbn [String.length]; lia|].
      split; [lia|].
      intros _; split.
      * replace (Z.succ L - 1) with L by lia. fold P. lia.
      * rewrite first_char_app by assumption. exact Hfirst.
Qed.

Lemma digits_spec (n : Z) :
  0 <= n ->
  numeral (WString.digits n) n /\
  (1 <= String.length (WString.digits n))%nat /\
  n < 10 ^ Z.of_nat (String.length (WString.digits n)) /\
  (0 < n -> 10 ^ (Z.of_nat (String.length (WString.digits n)) - 1) <= n /\
            first_char (WString.digits n) <> Some "0"%char).
Proof.
  intros Hn; unfold WString.digits.
  assert (Hf : 0 <= n < 2 ^ Z.of_nat (S (Z.to_nat (Z.log2 n)))).
  { rewrite Nat2Z.inj_succ, Z2Nat.id by apply Z.log2_nonneg.
    destruct (Z.eq_dec n 0) as [->|Hne]; [change (0 <= 0 < 2); lia|].
    split; [lia | apply (Z.log2_spec n); lia]. }
  destruct (utoa_spec (S (Z.to_nat (Z.log2 n))) n EmptyString ltac:(lia) Hf) as (s & Hs & Hall & Hval & Hlen & Hub & Hlb).
  rewrite append_nil_r in Hs; rewrite Hs.
  repeat split; try assumption.
  - unfold WString.value; rewrite Hval; lia.
  - now apply Hlb.
  - now apply Hlb.
Qed.

(** A non-negative [int] prints as its digits. *)
Lemma of_int_nonneg (n : Z) : 0 <= n -> WString.of_int n = WString.digits n.
Proof.
  intros H; unfold WString.of_int.
  destruct (Z.ltb_spec n 0); [lia | reflexivity].
Qed.

(** The number of digits follows from the size of the number. *)
Lemma digits_length (n : Z) (k : nat) :
  10 ^ Z.of_nat k <= n < 10 ^ Z.of_nat (S k) ->
  String.length (WString.digits n) = S k.
Proof.
  intros [Hlo Hhi].
  assert (Hpos : 0 < n) by (pose proof (Z.pow_pos_nonneg 10 (Z.of_nat k)); lia).
  destruct (digits_spec n ltac:(lia)) as (_ & Hlen & Hub & Hlb).
  destruct (Hlb Hpos) as [Hlow _].
  set (l := String.length (WString.digits n)) in *.
  destruct (Nat.lt_trichotomy l (S k)) as [Hlt|[Heq|Hgt]]; [|exact Heq|].
  - assert (10 ^ Z.of_nat l <= 10 ^ Z.of_nat k)
      by (apply Z.pow_le_mono_r; lia).
    lia.
  - assert (10 ^ Z.of_nat (S k) <= 10 ^ (Z.of_nat l - 1))
      by (apply Z.pow_le_mono_r; lia).
    lia.
Qed.

(** ** Traces *)

Lemma added_of_trace {A : Type} (m : M A) (d : Device) (t : list event) :
  trace (exec m d) = (trace d ++ t)%list -> added m d = t.
Proof.
  intros H; unfold added; rewrite H.
  rewrite skipn_app, skipn_all, Nat.sub_diag; reflexivity.
Qed.

Lemma lcd_prints_app (t u : list event) :
  lcd_prints (t ++ u)%list = (lcd_prints t ++ lcd_prints u)%list.
Proof.
  induction t as [|e t IH]; simpl; [reflexivity|].
  destruct e; simpl; rewrite IH; reflexivity.
Qed.

Lemma bind_emit {A : Type} (e : event) (k : unit -> M A) (d : Device) :
  bind (emit e) k d =
  k tt {| lastPollTime := lastPollTime d; status_calls := status_calls d;
          millis_calls := millis_calls d; requests := requests d;
          trace := trace d ++ [e] |}.
Proof. reflexivity. Qed.

Section Properties.

Context {J : ArduinoJson}.
Variable unrepresentable : float -> Z.
Variable world : World.

Local Notation run_fetchAndDisplay := (fetchAndDisplay unrepresentable world).
Local Notation run_loop := (loop unrepresentable world).
Local Notation run_setup := (setup world).
Local Notation run_main := (main unrepresentable world).

Local Ltac run :=
  unfold fetchAndDisplay, bind, WiFi_status_call, http_GET_call,
    http_getString_call, http_end_call, emit.

(** *** The four ways through [fetchAndDisplay] *)

Lemma fetch_link_down (d : Device) :
  WiFi_status world (status_calls d) <> WL_CONNECTED ->
  run_fetchAndDisplay d = (tt, after_link_down d).
Proof.
  intros H; run.
  destruct (WiFi_status world (status_calls d)); try congruence;
    cbn; unfold after_link_down, link_down_trace;
    repeat rewrite <- app_assoc; reflexivity.
Qed.

Lemma fetch_server_error (d : Device) :
  WiFi_status world (status_calls d) = WL_CONNECTED ->
  GET world (requests d) <> 200 ->
  run_fetchAndDisplay d = (tt, after_request d (server_error_trace (GET world (requests d)))).
Proof.
  intros Hlink Hcode; run; rewrite Hlink.
  cbn -[WString.of_int padRight String.append].
  destruct (Z.eqb_spec (GET world (requests d)) 200) as [E|_]; [contradiction|].
  cbn -[WString.of_int padRight String.append].
  unfold after_request, server_error_trace, request_trace, request_url.
  repeat rewrite <- app_assoc; reflexivity.
Qed.

Lemma fetch_parse_error (d : Device) :
  WiFi_status world (status_calls d) = WL_CONNECTED ->
  GET world (requests d) = 200 ->
  accepted (getString world (requests d)) = false ->
  run_fetchAndDisplay d =
  (tt, after_request d
         (parse_error_trace (getString world (requests d))
            (fst (deserializeJson 256 (getString world (requests d)))))).
Proof.
  intros Hlink Hcode Hacc; run; rewrite Hlink.
  cbn -[WString.of_int padRight String.append].
  rewrite Hcode.
  cbn -[WString.of_int padRight String.append].
  unfold accepted in Hacc.
  destruct (deserializeJson 256 (getString world (requests d))) as [error doc].
  rewrite Hacc.
  cbn -[WString.of_int padRight String.append].
  unfold after_request, parse_error_trace, request_trace, request_url.
  repeat rewrite <- app_assoc; reflexivity.
Qed.

Lemma fetch_frame (d : Device) :
  WiFi_status world (status_calls d) = WL_CONNECTED ->
  GET world (requests d) = 200 ->
  accepted (getString world (requests d)) = true ->
  run_fetchAndDisplay d =
  (tt, after_request d
         (frame_trace (getString world (requests d))
            (build_line1 (read_status (data_of (getString world (requests d))))
                         (read_currentToken (data_of (getString world (requests d)))))
            (build_line2 unrepresentable
               (read_estimatedWait (data_of (getString world (requests d))))))).
Proof.
  intros Hlink Hcode Hacc; run; rewrite Hlink.
  cbn -[WString.of_int padRight String.append].
  rewrite Hcode.
  cbn -[WString.of_int padRight String.append].
  unfold accepted in Hacc; unfold data_of.
  destruct (deserializeJson 256 (getString world (requests d))) as [error doc].
  rewrite Hacc.
  cbn -[WString.of_int padRight String.append].
  unfold after_request, frame_trace, request_trace, request_url.
  repeat rewrite <- app_assoc; reflexivity.
Qed.

(** *** Lines handed to the LCD *)

Lemma padRight_fitted (s : string) : fitted 16 s (padRight s 16).
Proof.
  assert (H16 : 0 <= 16 <= UINT_MAX) by (unfold UINT_MAX; lia).
  split; [apply padRight_16_length|]; split; intros H.
  - now rewrite padRight_short by (assumption || (simpl; lia)).
  - now rewrite padRight_long by (assumption || (simpl; lia)).
Qed.

Lemma added_link_down (d : Device) :
  WiFi_status world (status_calls d) <> WL_CONNECTED ->
  added run_fetchAndDisplay d = link_down_trace.
Proof.
  intros H; apply added_of_trace; unfold exec.
  now rewrite fetch_link_down.
Qed.

Lemma added_server_error (d : Device) :
  WiFi_status world (status_calls d) = WL_CONNECTED ->
  GET world (requests d) <> 200 ->
  added run_fetchAndDisplay d = server_error_trace (GET world (requests d)).
Proof.
  intros H1 H2; apply added_of_trace; unfold exec.
  now rewrite fetch_server_error.
Qed.

Lemma added_parse_error (d : Device) :
  WiFi_status world (status_calls d) = WL_CONNECTED ->
  GET world (requests d) = 200 ->
  accepted (getString world (requests d)) = false ->
  added run_fetchAndDisplay d =
  parse_error_trace (getString world (requests d))
    (fst (deserializeJson 256 (getString world (requests d)))).
Proof.
  intros H1 H2 H3; apply added_of_trace; unfold exec.
  now rewrite fetch_parse_error.
Qed.

Lemma added_frame (d : Device) :
  WiFi_status world (status_calls d) = WL_CONNECTED ->
  GET world (requests d) = 200 ->
  accepted (getString world (requests d)) = true ->
  added run_fetchAndDisplay d =
  frame_trace (getString world (requests d))
    (build_line1 (read_status (data_of (getString world (requests d))))
                 (read_currentToken (data_of (getString world (requests d)))))
    (build_line2 unrepresentable
       (read_estimatedWait (data_of (getString world (requests d))))).
Proof.
  intros H1 H2 H3; apply added_of_trace; unfold exec.
  now rewrite fetch_frame.
Qed.

(** C1, as amended.  In the serving and idle branches both lines handed to
    the LCD are exactly 16 characters long: the built line left-justified,
    padded with spaces or cut.  In the error branches the text is handed over
    as it is, without padding: "WiFi Lost...", "Server Error" with
    "Code: <status>", and "Parse Error". *)
Theorem lines_handed_to_lcd (d : Device) :
  let payload := getString world (requests d) in
  let statusCode := GET world (requests d) in
  let line1 := build_line1 (read_status (data_of payload))
                           (read_currentToken (data_of payload)) in
  let line2 := build_line2 unrepresentable (read_estimatedWait (data_of payload)) in
  (WiFi_status world (status_calls d) = WL_CONNECTED ->
   statusCode = 200 -> accepted payload = true ->
   exists row0 row1,
     shown run_fetchAndDisplay d = [row0; row1] /\
     fitted 16 line1 row0 /\ fitted 16 line2 row1 /\
     every_line_16 (shown run_fetchAndDisplay d)) /\
  (WiFi_status world (status_calls d) <> WL_CONNECTED ->
   shown run_fetchAndDisplay d = ["WiFi Lost..."]) /\
  (WiFi_status world (status_calls d) = WL_CONNECTED ->
   statusCode <> 200 ->
   shown run_fetchAndDisplay d = ["Server Error"; "Code: " ++ WString.of_int statusCode]) /\
  (WiFi_status world (status_calls d) = WL_CONNECTED ->
   statusCode = 200 -> accepted payload = false ->
   shown run_fetchAndDisplay d = ["Parse Error"]).
Proof.
  cbv zeta; unfold shown; repeat split.
  - intros H1 H2 H3; rewrite (added_frame d H1 H2 H3).
    eexists; eexists; split; [reflexivity|].
    split; [apply padRight_fitted|]; split; [apply padRight_fitted|].
    repeat constructor; apply padRight_16_length.
  - intros H1; now rewrite (added_link_down d H1).
  - intros H1 H2; now rewrite (added_server_error d H1 H2).
  - intros H1 H2 H3; now rewrite (added_parse_error d H1 H2 H3).
Qed.

(** C5.  When the link is down at poll time the cycle clears the display,
    writes "WiFi Lost..." on the first row and returns: no request is built
    or sent, and no event of the HTTP client occurs. *)
Theorem link_down_skips_network (d : Device) :
  WiFi_status world (status_calls d) <> WL_CONNECTED ->
  run_fetchAndDisplay d = (tt, after_link_down d) /\
  added run_fetchAndDisplay d = [lcd_clear; lcd_setCursor 0 0; lcd_print "WiFi Lost..."] /\
  shown run_fetchAndDisplay d = ["WiFi Lost..."] /\
  requests (exec run_fetchAndDisplay d) = requests d /\
  no_network (added run_fetchAndDisplay d).
Proof.
  intros H; unfold shown, no_network.
  rewrite (added_link_down d H); unfold exec.
  rewrite (fetch_link_down d H); repeat split.
Qed.

(** *** Classification of the response *)

Lemma in_request_trace_getString : ~ In http_getString request_trace.
Proof.
  unfold request_trace; simpl; intros [H|[H|[H|[]]]]; discriminate.
Qed.

Lemma lcd_prints_frame (payload line1 line2 : string) :
  lcd_prints (frame_trace payload line1 line2) = [padRight line1 16; padRight line2 16].
Proof. reflexivity. Qed.

Lemma lcd_prints_parse_error (payload : string) (error : DeserializationError) :
  lcd_prints (parse_error_trace payload error) = ["Parse Error"].
Proof. reflexivity. Qed.

Lemma lcd_prints_server_error (statusCode : Z) :
  lcd_prints (server_error_trace statusCode) =
  ["Server Error"; "Code: " ++ WString.of_int statusCode].
Proof. reflexivity. Qed.

Lemma in_frame_getString (payload line1 line2 : string) :
  In http_getString (frame_trace payload line1 line2).
Proof.
  unfold frame_trace; apply in_or_app; right; left; reflexivity.
Qed.

Lemma in_parse_error_getString (payload : string) (error : DeserializationError) :
  In http_getString (parse_error_trace payload error).
Proof.
  unfold parse_error_trace; apply in_or_app; right; left; reflexivity.
Qed.

Lemma not_in_server_error_getString (statusCode : Z) :
  ~ In http_getString (server_error_trace statusCode).
Proof.
  unfold server_error_trace; intros H.
  apply in_app_or in H; destruct H as [H|H].
  - now apply in_request_trace_getString.
  - cbn [In] in H; repeat (destruct H as [H|H]; [discriminate|]); exact H.
Qed.

(** C2, as amended.  With the link up, the cycle shows "Server Error" on the
    first row and "Code: " with the literal status code on the second if and
    only if the status code differs from 200; then the body is not read.  A
    response with status 200, and no other, has its body read and handed to
    the JSON decoder, whose result decides between the frame and
    "Parse Error". *)
Theorem server_error_iff_not_200 (d : Device) :
  WiFi_status world (status_calls d) = WL_CONNECTED ->
  let payload := getString world (requests d) in
  let statusCode := GET world (requests d) in
  (server_error_shown statusCode (shown run_fetchAndDisplay d) <-> statusCode <> 200) /\
  (statusCode <> 200 ->
   added run_fetchAndDisplay d = server_error_trace statusCode /\
   ~ In http_getString (added run_fetchAndDisplay d)) /\
  (statusCode = 200 ->
   In http_getString (added run_fetchAndDisplay d) /\
   added run_fetchAndDisplay d =
   if accepted payload
   then frame_trace payload
          (build_line1 (read_status (data_of payload))
                       (read_currentToken (data_of payload)))
          (build_line2 unrepresentable (read_estimatedWait (data_of payload)))
   else parse_error_trace payload (fst (deserializeJson 256 payload))).
Proof.
  intros Hlink; cbv zeta; unfold server_error_shown, shown.
  destruct (Z.eq_dec (GET world (requests d)) 200) as [E|NE].
  - destruct (accepted (getString world (requests d))) eqn:Hacc.
    + rewrite (added_frame d Hlink E Hacc), lcd_prints_frame.
      split; [split|split].
      * intros H; injection H as H _.
        pose proof (padRight_16_length
          (build_line1 (read_status (data_of (getString world (requests d))))
             (read_currentToken (data_of (getString world (requests d)))))) as L.
        rewrite H in L; discriminate L.
      * intros NE; contradiction.
      * intros NE; contradiction.
      * intros _; split; [apply in_frame_getString | reflexivity].
    + rewrite (added_parse_error d Hlink E Hacc), lcd_prints_parse_error.
      split; [split|split].
      * intros H; discriminate H.
      * intros NE; contradiction.
      * intros NE; contradiction.
      * intros _; split; [apply in_parse_error_getString | reflexivity].
  - rewrite (added_server_error d Hlink NE), lcd_prints_server_error.
    split; [split|split].
    + intros _; exact NE.
    + intros _; reflexivity.
    + intros _; split; [reflexivity | apply not_in_server_error_getString].
    + intros E; contradiction.
Qed.

(** C7, as amended.  For a response with status 200 the cycle shows
    "Parse Error" if and only if deserialization failed or the document's
    [success] member is not [true].  The error text goes to the serial log
    only; the LCD gets nothing but "Parse Error" on the first row. *)
Theorem parse_error_iff_rejected (d : Device) :
  WiFi_status world (status_calls d) = WL_CONNECTED ->
  GET world (requests d) = 200 ->
  let payload := getString world (requests d) in
  let error := fst (deserializeJson 256 payload) in
  let doc := snd (deserializeJson 256 payload) in
  (parse_error_shown (shown run_fetchAndDisplay d) <->
   failed error = true \/ variant_eq_bool (doc_member doc "success") true = false) /\
  (failed error = true \/ variant_eq_bool (doc_member doc "success") true = false ->
   added run_fetchAndDisplay d =
   (request_trace ++
    [http_getString; Serial_println ("Response: " ++ payload);
     lcd_clear; lcd_setCursor 0 0; lcd_print "Parse Error";
     Serial_println ("JSON Error: " ++ c_str error);
     http_end])%list).
Proof.
  intros Hlink Hcode; cbv zeta; unfold parse_error_shown, shown.
  assert (Hacc : accepted (getString world (requests d)) = false <->
                 failed (fst (deserializeJson 256 (getString world (requests d)))) = true \/
                 variant_eq_bool
                   (doc_member (snd (deserializeJson 256 (getString world (requests d))))
                      "success") true = false).
  { unfold accepted.
    destruct (deserializeJson 256 (getString world (requests d))) as [error doc]; simpl.
    rewrite andb_false_iff, negb_false_iff; tauto. }
  destruct (accepted (getString world (requests d))) eqn:E.
  - rewrite (added_frame d Hlink Hcode E); split.
    + split; [simpl; intros H; discriminate|].
      intros H; apply Hacc in H; discriminate.
    + intros H; apply Hacc in H; discriminate.
  - rewrite (added_parse_error d Hlink Hcode E); split.
    + split; [intros _; now apply Hacc | reflexivity].
    + reflexivity.
Qed.

(** *** The two data lines *)

Lemma prefix_append (p x : string) : String.prefix p (p ++ x) = true.
Proof.
  induction p as [|a p IH]; simpl.
  - destruct x; reflexivity.
  - destruct (ascii_dec a a) as [_|N]; [exact IH | contradiction].
Qed.

Lemma build_line1_serving (status : string) (currentToken : Z) :
  status = "consulting" -> 0 < currentToken ->
  exists numeral3, build_line1 status currentToken = "NOW: #" ++ numeral3.
Proof.
  intros -> Hpos; unfold build_line1.
  rewrite String.eqb_refl.
  destruct (Z.ltb_spec 0 currentToken) as [_|]; [|lia].
  cbv [andb].
  destruct (currentToken <? 10); [eexists; reflexivity|].
  destruct (currentToken <? 100); eexists; reflexivity.
Qed.

Lemma build_line1_idle (status : string) (currentToken : Z) :
  ~ (status = "consulting" /\ 0 < currentToken) ->
  build_line1 status currentToken = "QUEUE IDLE".
Proof.
  intros H; unfold build_line1.
  destruct (String.eqb_spec status "consulting") as [E|_]; [|reflexivity].
  destruct (Z.ltb_spec 0 currentToken) as [Hpos|_]; [|reflexivity].
  exfalso; apply H; split; assumption.
Qed.

(** C3.  After a successful decode the first row is the serving line
    ("NOW: #...") if and only if the status is "consulting" and the current
    token is positive; in every other case, a null token among them, it is
    "QUEUE IDLE". *)
Theorem serving_iff_consulting_and_positive (d : Device) :
  WiFi_status world (status_calls d) = WL_CONNECTED ->
  GET world (requests d) = 200 ->
  accepted (getString world (requests d)) = true ->
  let data := data_of (getString world (requests d)) in
  let status := read_status data in
  let currentToken := read_currentToken data in
  exists line1 line2,
    shown run_fetchAndDisplay d = [padRight line1 16; padRight line2 16] /\
    (String.prefix "NOW: #" line1 = true <->
     status = "consulting" /\ 0 < currentToken) /\
    (~ (status = "consulting" /\ 0 < currentToken) ->
     line1 = "QUEUE IDLE" /\ padRight line1 16 = "QUEUE IDLE      ") /\
    (isNull (member data "current_token") = true -> line1 = "QUEUE IDLE").
Proof.
  intros Hlink Hcode Hacc; cbv zeta; unfold shown.
  rewrite (added_frame d Hlink Hcode Hacc), lcd_prints_frame.
  set (data := data_of (getString world (requests d))).
  exists (build_line1 (read_status data) (read_currentToken data)).
  exists (build_line2 unrepresentable (read_estimatedWait data)).
  split; [reflexivity|]; split; [split|split].
  - intros H.
    destruct (String.eqb_spec (read_status data) "consulting") as [E|N].
    + destruct (Z.ltb_spec 0 (read_currentToken data)) as [Hpos|Hneg]; [tauto|].
      rewrite build_line1_idle in H by lia; discriminate.
    + rewrite build_line1_idle in H by tauto; discriminate.
  - intros [Hs Hp].
    destruct (build_line1_serving _ _ Hs Hp) as [n ->].
    apply prefix_append.
  - intros Hn; rewrite (build_line1_idle _ _ Hn); split; reflexivity.
  - intros Hnull; apply build_line1_idle.
    unfold read_currentToken; rewrite Hnull; lia.
Qed.

(** C4.  For a consulting token [t] the first line is "NOW: #" followed by
    the numeral of [t]: with two leading zeros for [t] in 1..9, one for
    10..99, none for 100..999, and the plain digits, four or more, from 1000
    on. *)
Theorem token_format (t : Z) :
  1 <= t ->
  let n := WString.of_int t in
  numeral n t /\ first_char n <> Some "0"%char /\
  (t <= 9 ->
   String.length n = 1%nat /\ build_line1 "consulting" t = "NOW: #" ++ "00" ++ n) /\
  (10 <= t <= 99 ->
   String.length n = 2%nat /\ build_line1 "consulting" t = "NOW: #" ++ "0" ++ n) /\
  (100 <= t <= 999 ->
   String.length n = 3%nat /\ build_line1 "consulting" t = "NOW: #" ++ n) /\
  (1000 <= t ->
   (4 <= String.length n)%nat /\ build_line1 "consulting" t = "NOW: #" ++ n).
Proof.
  intros Ht; cbv zeta.
  rewrite of_int_nonneg by lia.
  destruct (digits_spec t ltac:(lia)) as (Hnum & Hlen & Hub & Hlb).
  destruct (Hlb ltac:(lia)) as [Hlow Hfirst].
  assert (Hline : build_line1 "consulting" t =
                  if t <? 10 then "NOW: #" ++ "00" ++ WString.digits t
                  else if t <? 100 then "NOW: #" ++ "0" ++ WString.digits t
                  else "NOW: #" ++ WString.digits t).
  { unfold build_line1; rewrite String.eqb_refl, of_int_nonneg by lia.
    destruct (Z.ltb_spec 0 t) as [_|]; [reflexivity | lia]. }
  rewrite Hline.
  split; [exact Hnum|]; split; [exact Hfirst|]; repeat split.
  - apply (digits_length t 0); simpl; lia.
  - destruct (Z.ltb_spec t 10); [reflexivity | lia].
  - apply (digits_length t 1); simpl; lia.
  - destruct (Z.ltb_spec t 10); [lia|].
    destruct (Z.ltb_spec t 100); [reflexivity | lia].
  - apply (digits_length t 2); simpl; lia.
  - destruct (Z.ltb_spec t 10); [lia|].
    destruct (Z.ltb_spec t 100); [lia | reflexivity].
  - destruct (String.length (WString.digits t)) as [|[|[|[|k]]]];
      simpl in Hub; lia.
  - destruct (Z.ltb_spec t 10); [lia|].
    destruct (Z.ltb_spec t 100); [lia | reflexivity].
Qed.

(** [truncate] drops the fractional part: it is the integer nearest to the
    value among those not larger in magnitude. *)
Lemma truncate_toward_zero (f : spec_float) :
  0 < float_den f /\
  Z.abs (truncate f) * float_den f <= Z.abs (float_num f)
    < (Z.abs (truncate f) + 1) * float_den f /\
  0 <= truncate f * float_num f.
Proof.
  assert (Hden : 0 < float_den f).
  { unfold float_den; destruct f;
      first [lia | apply Z.pow_pos_nonneg; lia]. }
  split; [exact Hden|]; unfold truncate.
  set (n := float_num f); set (den := float_den f) in *.
  destruct (Z.le_gt_cases 0 n) as [Hn|Hn].
  - rewrite Z.quot_div_nonneg by lia.
    pose proof (Z.div_pos n den Hn Hden) as Hq.
    pose proof (Z.div_mod n den ltac:(lia)) as Hdm.
    pose proof (Z.mod_pos_bound n den Hden) as Hm.
    rewrite (Z.abs_eq (n / den)), (Z.abs_eq n) by lia.
    split; [lia|]. apply Z.mul_nonneg_nonneg; lia.
  - assert (E : Z.quot n den = - (- n / den)).
    { rewrite <- (Z.opp_involutive n) at 1.
      rewrite Z.quot_opp_l, Z.quot_div_nonneg by lia; reflexivity. }
    rewrite E.
    pose proof (Z.div_pos (- n) den ltac:(lia) Hden) as Hq.
    pose proof (Z.div_mod (- n) den ltac:(lia)) as Hdm.
    pose proof (Z.mod_pos_bound (- n) den Hden) as Hm.
    rewrite Z.abs_opp, (Z.abs_eq (- n / den)), (Z.abs_neq n) by lia.
    split; [lia|].
    replace (- (- n / den) * n) with ((- n / den) * - n) by ring.
    apply Z.mul_nonneg_nonneg; lia.
Qed.

(** C8.  In the serving and the idle state alike the second line is
    "Wait: ~", the estimated wait truncated toward zero, and " min"; the
    wait nearest to 23.9 gives "Wait: ~23 min" and 24.0 gives
    "Wait: ~24 min".  The wait is the [float] the sketch holds; its
    truncation has to be an [int] for the cast to be defined. *)
Theorem wait_line_truncates (d : Device) :
  WiFi_status world (status_calls d) = WL_CONNECTED ->
  GET world (requests d) = 200 ->
  accepted (getString world (requests d)) = true ->
  let estimatedWait := read_estimatedWait (data_of (getString world (requests d))) in
  fits_int estimatedWait = true ->
  (exists row0,
     shown run_fetchAndDisplay d =
     [row0; padRight ("Wait: ~" ++ WString.of_int (truncate estimatedWait) ++ " min") 16]) /\
  build_line2 unrepresentable (double_to_float (tenths 239)) = "Wait: ~23 min" /\
  build_line2 unrepresentable (double_to_float (tenths 240)) = "Wait: ~24 min".
Proof.
  intros Hlink Hcode Hacc; cbv zeta; intros Hfit; unfold shown.
  rewrite (added_frame d Hlink Hcode Hacc).
  split; [|split].
  - eexists; simpl; unfold build_line2, float_to_int.
    now rewrite Hfit.
  - unfold build_line2, float_to_int.
    replace (fits_int (double_to_float (tenths 239))) with true
      by (vm_compute; reflexivity).
    vm_compute; reflexivity.
  - unfold build_line2, float_to_int.
    replace (fits_int (double_to_float (tenths 240))) with true
      by (vm_compute; reflexivity).
    vm_compute; reflexivity.
Qed.

(** *** The poll scheduler *)

Lemma fetch_status_calls (d : Device) :
  status_calls (exec run_fetchAndDisplay d) = S (status_calls d).
Proof.
  unfold exec.
  destruct (wl_status_eqb (WiFi_status world (status_calls d)) WL_CONNECTED) eqn:Hst.
  - assert (Hlink : WiFi_status world (status_calls d) = WL_CONNECTED)
      by (destruct (WiFi_status world (status_calls d)); (reflexivity || discriminate)).
    destruct (Z.eq_dec (GET world (requests d)) 200) as [E|NE].
    + destruct (accepted (getString world (requests d))) eqn:Hacc.
      * now rewrite (fetch_frame d Hlink E Hacc).
      * now rewrite (fetch_parse_error d Hlink E Hacc).
    + now rewrite (fetch_server_error d Hlink NE).
  - assert (Hlink : WiFi_status world (status_calls d) <> WL_CONNECTED)
      by (intros E; rewrite E in Hst; discriminate).
    now rewrite (fetch_link_down d Hlink).
Qed.

(** C6.  One round of [loop] reads the clock and polls if and only if the
    32-bit unsigned difference between the reading and [lastPollTime] is at
    least the interval; a poll stores the reading and runs one fetch, and
    otherwise nothing else happens.  The difference is the true elapsed time
    even when the counter has wrapped past zero in between. *)
Theorem loop_polls_iff_interval_elapsed (d : Device) :
  let now := to_unsigned_long (millis world (millis_calls d)) in
  let waited := (now - lastPollTime d) mod 2 ^ ULONG_BITS in
  (POLL_INTERVAL <= waited -> run_loop d = run_fetchAndDisplay (polled_at now d)) /\
  (waited < POLL_INTERVAL -> run_loop d = (tt, ticked d)) /\
  (status_calls (exec run_loop d) <> status_calls d <-> POLL_INTERVAL <= waited) /\
  (forall t0 elapsed : Z,
     lastPollTime d = to_unsigned_long t0 ->
     millis world (millis_calls d) = t0 + elapsed ->
     0 <= elapsed < 2 ^ ULONG_BITS ->
     waited = elapsed).
Proof.
  cbv zeta.
  set (now := to_unsigned_long (millis world (millis_calls d))).
  set (waited := (now - lastPollTime d) mod 2 ^ ULONG_BITS).
  assert (Hloop : run_loop d =
                  if POLL_INTERVAL <=? waited
                  then run_fetchAndDisplay (polled_at now d)
                  else (tt, ticked d)).
  { unfold loop, bind, millis_call, get_lastPollTime, set_lastPollTime, ret.
    cbn [lastPollTime status_calls millis_calls requests trace].
    change (to_unsigned_long POLL_INTERVAL) with POLL_INTERVAL.
    change (ulong_sub (to_unsigned_long (millis world (millis_calls d))) (lastPollTime d))
      with waited.
    destruct (POLL_INTERVAL <=? waited); reflexivity. }
  split; [|split; [|split]].
  - intros H; rewrite Hloop.
    destruct (Z.leb_spec POLL_INTERVAL waited); [reflexivity | lia].
  - intros H; rewrite Hloop.
    destruct (Z.leb_spec POLL_INTERVAL waited); [lia | reflexivity].
  - unfold exec; rewrite Hloop.
    destruct (Z.leb_spec POLL_INTERVAL waited) as [Hle|Hgt].
    + pose proof (fetch_status_calls (polled_at now d)) as Hs.
      unfold exec in Hs; rewrite Hs; cbn [status_calls polled_at].
      split; [intros _; exact Hle | intros _; lia].
    + cbn [snd status_calls ticked].
      split; [intros H; contradiction | intros H; lia].
  - intros t0 elapsed Hlast Hnow Hel.
    unfold waited, now, to_unsigned_long; rewrite Hlast, Hnow.
    unfold to_unsigned_long.
    rewrite Zminus_mod_idemp_l, Zminus_mod_idemp_r.
    replace (t0 + elapsed - t0) with elapsed by lia.
    apply Z.mod_small; exact Hel.
Qed.

(** *** Start-up *)

(** The connect loop leaves through its own test: fuel beyond the 31 tests
    changes nothing. *)
Lemma connect_while_stable (fuel : nat) :
  forall (attempts : Z) (d : Device),
    (Z.to_nat (30 - attempts) < fuel)%nat ->
    connect_while world (S fuel) attempts d = connect_while world fuel attempts d.
Proof.
  induction fuel as [|fuel IH]; intros attempts d Hfuel; [lia|].
  change (connect_while world (S (S fuel)) attempts d)
    with (bind (WiFi_status_call world)
            (fun st =>
               if negb (wl_status_eqb st WL_CONNECTED) && (attempts <? 30)
               then bind (emit (delay 500))
                      (fun _ => bind (emit (Serial_print "."))
                         (fun _ => connect_while world (S fuel) (attempts + 1)))
               else ret attempts) d).
  change (connect_while world (S fuel) attempts d)
    with (bind (WiFi_status_call world)
            (fun st =>
               if negb (wl_status_eqb st WL_CONNECTED) && (attempts <? 30)
               then bind (emit (delay 500))
                      (fun _ => bind (emit (Serial_print "."))
                         (fun _ => connect_while world fuel (attempts + 1)))
               else ret attempts) d).
  unfold bind, WiFi_status_call.
  destruct (negb (wl_status_eqb (WiFi_status world (status_calls d)) WL_CONNECTED)
            && (attempts <? 30)) eqn:Hc; [|reflexivity].
  apply andb_true_iff in Hc; destruct Hc as [_ Hlt]; apply Z.ltb_lt in Hlt.
  unfold emit; cbn [fst snd]; apply IH; lia.
Qed.

(** Thirty refused attempts: the loop waits thirty times 500 ms and leaves at
    the 31st test, whatever that test finds. *)
Lemma connect_refused (n : nat) :
  forall (attempts : Z) (d : Device) (fuel : nat),
    attempts = 30 - Z.of_nat n -> (n < fuel)%nat ->
    (forall k, (k < n)%nat ->
       WiFi_status world (status_calls d + k) <> WL_CONNECTED) ->
    connect_while world fuel attempts d =
    (30, {| lastPollTime := lastPollTime d;
            status_calls := status_calls d + S n;
            millis_calls := millis_calls d; requests := requests d;
            trace := trace d ++ attempts_trace n |}).
Proof.
  induction n as [|n IH]; intros attempts d fuel Ha Hfuel Hdown;
    (destruct fuel as [|fuel]; [lia|]);
    cbn [connect_while]; unfold bind, WiFi_status_call.
  - replace (attempts <? 30) with false by (symmetry; apply Z.ltb_ge; lia).
    rewrite andb_false_r; unfold ret; subst attempts.
    cbn [attempts_trace]; rewrite app_nil_r, Nat.add_1_r; reflexivity.
  - assert (H0 : WiFi_status world (status_calls d) <> WL_CONNECTED).
    { specialize (Hdown 0%nat ltac:(lia)); now rewrite Nat.add_0_r in Hdown. }
    replace (wl_status_eqb (WiFi_status world (status_calls d)) WL_CONNECTED)
      with false
      by (destruct (WiFi_status world (status_calls d)); (reflexivity || congruence)).
    replace (attempts <? 30) with true by (symmetry; apply Z.ltb_lt; lia).
    unfold emit; cbn [negb andb fst snd].
    rewrite (IH (attempts + 1) _ fuel ltac:(lia) ltac:(lia)).
    + cbn [lastPollTime status_calls millis_calls requests trace attempts_trace].
      rewrite <- !app_assoc; cbn [app].
      f_equal; f_equal; lia.
    + intros k Hk; cbn [status_calls].
      replace (S (status_calls d) + k)%nat with (status_calls d + S k)%nat by lia.
      apply Hdown; lia.
Qed.

Lemma halt_never_returns (rounds : nat) :
  forall d : Device,
    halt rounds d =
    (None, {| lastPollTime := lastPollTime d; status_calls := status_calls d;
              millis_calls := millis_calls d; requests := requests d;
              trace := trace d ++ repeat (delay 1000) rounds |}).
Proof.
  induction rounds as [|rounds IH]; intros d; cbn [halt repeat].
  - unfold ret; rewrite app_nil_r; destruct d; reflexivity.
  - unfold bind, emit; rewrite IH.
    cbn [lastPollTime status_calls millis_calls requests trace].
    now rewrite <- app_assoc.
Qed.

Lemma no_network_app (t u : list event) :
  no_network t -> no_network u -> no_network (t ++ u).
Proof.
  unfold no_network; intros Ht Hu; now rewrite forallb_app, Ht, Hu.
Qed.

Lemma no_network_attempts (n : nat) : no_network (attempts_trace n).
Proof.
  unfold no_network; induction n as [|n IH]; [reflexivity | exact IH].
Qed.

Lemma no_network_halt (n : nat) : no_network (repeat (delay 1000) n).
Proof.
  unfold no_network; induction n as [|n IH]; [reflexivity | exact IH].
Qed.

Lemma lcd_prints_attempts (n : nat) : lcd_prints (attempts_trace n) = [].
Proof.
  induction n as [|n IH]; [reflexivity | exact IH].
Qed.

Lemma lcd_prints_halt (n : nat) : lcd_prints (repeat (delay 1000) n) = [].
Proof.
  induction n as [|n IH]; [reflexivity | exact IH].
Qed.

(** C9.  When all thirty attempts of 500 ms are refused and the link is
    still down at the final test, [setup] shows "WiFi Failed!" and never
    returns: however long the device is watched, it only adds waits of
    1000 ms.  [loop] is never entered, the clock is never read and no
    request is ever made. *)
Theorem failed_connect_halts (rounds : nat) :
  (forall k, (k < 30)%nat -> WiFi_status world k <> WL_CONNECTED) ->
  WiFi_status world 31 <> WL_CONNECTED ->
  run_setup rounds power_on = (None, halted rounds) /\
  run_main rounds power_on = (tt, halted rounds) /\
  no_network (trace (halted rounds)) /\
  millis_calls (halted rounds) = 0%nat /\ requests (halted rounds) = 0%nat /\
  lcd_prints (trace (halted rounds)) =
  ["OPD Queue System"; "Connecting WiFi."; "WiFi Failed!"; "Check config..."].
Proof.
  intros Hdown Hlast.
  assert (Hsetup : run_setup rounds power_on = (None, halted rounds)).
  { unfold setup.
    remember (connect_while world 31 0) as connect eqn:Hconnect.
    remember (halt rounds) as stop eqn:Hstop.
    unfold power_on.
    do 10 (rewrite bind_emit; cbv beta;
           cbn [lastPollTime status_calls millis_calls requests trace app]).
    unfold bind at 1; subst connect.
    rewrite (connect_refused 30 0 _ 31%nat eq_refl ltac:(lia))
      by (intros k Hk; cbn [status_calls]; now apply Hdown).
    unfold bind at 1; unfold WiFi_status_call.
    cbn [fst snd lastPollTime status_calls millis_calls requests trace Nat.add].
    replace (wl_status_eqb (WiFi_status world 31) WL_CONNECTED) with false
      by (destruct (WiFi_status world 31); (reflexivity || congruence)).
    do 5 (rewrite bind_emit; cbv beta;
          cbn [lastPollTime status_calls millis_calls requests trace]).
    unfold bind, emit; subst stop.
    rewrite halt_never_returns.
    cbn [lastPollTime status_calls millis_calls requests trace].
    unfold halted, welcome_trace, failure_trace.
    rewrite <- !app_assoc; reflexivity. }
  split; [exact Hsetup|]; split; [|split; [|split; [|split]]].
  - unfold main, bind; rewrite Hsetup; reflexivity.
  - unfold halted; cbn [trace].
    apply no_network_app; [reflexivity|].
    apply no_network_app; [apply no_network_attempts|].
    apply no_network_app; [reflexivity | apply no_network_halt].
  - reflexivity.
  - reflexivity.
  - unfold halted; cbn [trace].
    rewrite !lcd_prints_app.
    rewrite lcd_prints_attempts, lcd_prints_halt; reflexivity.
Qed.

End Properties.

(** C10.  The [waiting_count] member has no influence on the display: two
    successful responses whose [data] objects agree on every member other
    than [waiting_count] give the same two rows. *)
Theorem waiting_count_not_shown {J : ArduinoJson} (unrepresentable : float -> Z)
  (world world' : World) (d d' : Device) :
  WiFi_status world (status_calls d) = WL_CONNECTED ->
  WiFi_status world' (status_calls d') = WL_CONNECTED ->
  GET world (requests d) = 200 ->
  GET world' (requests d') = 200 ->
  accepted (getString world (requests d)) = true ->
  accepted (getString world' (requests d')) = true ->
  (forall key, key <> "waiting_count" ->
     member (data_of (getString world (requests d))) key =
     member (data_of (getString world' (requests d'))) key) ->
  shown (fetchAndDisplay unrepresentable world) d =
  shown (fetchAndDisplay unrepresentable world') d'.
Proof.
  intros Hl Hl' Hc Hc' Ha Ha' Hsame; unfold shown.
  rewrite (added_frame unrepresentable world d Hl Hc Ha).
  rewrite (added_frame unrepresentable world' d' Hl' Hc' Ha').
  rewrite !lcd_prints_frame.
  unfold read_status, read_currentToken, read_estimatedWait.
  rewrite !Hsame by discriminate; reflexivity.
Qed.

(** * The properties on concrete runs *)

Lemma lines_handed_to_lcd_witness :
  exists row0 row1,
    shown (fetchAndDisplay (J := sample_json) saturate
             (steady_world WL_CONNECTED 200 "consulting 7")) power_on
    = [row0; row1] /\
    String.length row0 = 16%nat /\ String.length row1 = 16%nat.
Proof.
  destruct (proj1 (lines_handed_to_lcd (J := sample_json) saturate
                     (steady_world WL_CONNECTED 200 "consulting 7") power_on)
              eq_refl eq_refl eq_refl)
    as (row0 & row1 & Hshown & F0 & F1 & _).
  exists row0, row1.
  exact (conj Hshown (conj (proj1 F0) (proj1 F1))).
Defined.

(** C1 as stated fails: with the link down the only line handed to the LCD
    is "WiFi Lost...", twelve characters long. *)
Lemma link_down_line_is_not_16_wide :
  ~ every_line_16
      (shown (fetchAndDisplay (J := sample_json) saturate
                (steady_world WL_DISCONNECTED 200 "idle")) power_on).
Proof.
  assert (E : shown (fetchAndDisplay (J := sample_json) saturate
                       (steady_world WL_DISCONNECTED 200 "idle")) power_on
              = ["WiFi Lost..."]) by (vm_compute; reflexivity).
  rewrite E; intros H.
  inversion H as [|s l Hlen Hrest]; subst.
  discriminate Hlen.
Qed.

Lemma server_error_iff_not_200_witness :
  server_error_shown 500
    (shown (fetchAndDisplay (J := sample_json) saturate
              (steady_world WL_CONNECTED 500 "idle")) power_on).
Proof.
  apply (proj1 (server_error_iff_not_200 (J := sample_json) saturate
                  (steady_world WL_CONNECTED 500 "idle") power_on eq_refl)).
  discriminate.
Defined.

(** C2 as stated fails: the status 204 is a 2xx status and yet the cycle
    shows "Server Error" with "Code: 204". *)
Lemma status_204_shows_server_error :
  ~ (server_error_shown 204
       (shown (fetchAndDisplay (J := sample_json) saturate
                 (steady_world WL_CONNECTED 204 "idle")) power_on)
     <-> ~ is_2xx 204).
Proof.
  intros [H _]; apply H.
  - vm_compute; reflexivity.
  - unfold is_2xx; lia.
Qed.

Lemma parse_error_iff_rejected_witness :
  parse_error_shown
    (shown (fetchAndDisplay (J := sample_json) saturate
              (steady_world WL_CONNECTED 200 "garbage")) power_on).
Proof.
  apply (proj1 (parse_error_iff_rejected (J := sample_json) saturate
                  (steady_world WL_CONNECTED 200 "garbage") power_on
                  eq_refl eq_refl)).
  left; reflexivity.
Defined.

(** C7 as stated fails: a body that does not parse, sent with the 2xx status
    201, gives "Server Error", not "Parse Error". *)
Lemma status_201_garbage_is_not_parse_error :
  is_2xx 201 /\
  ~ (parse_error_shown
       (shown (fetchAndDisplay (J := sample_json) saturate
                 (steady_world WL_CONNECTED 201 "garbage")) power_on)
     <-> failed (fst (deserializeJson (ArduinoJson := sample_json) 256 "garbage")) = true \/
         variant_eq_bool (ArduinoJson := sample_json)
           (doc_member (snd (deserializeJson 256 "garbage")) "success") true = false).
Proof.
  split; [unfold is_2xx; lia|].
  intros [_ H].
  specialize (H (or_introl eq_refl)).
  vm_compute in H; discriminate H.
Qed.

Lemma serving_iff_consulting_and_positive_witness :
  exists line1 line2,
    shown (fetchAndDisplay (J := sample_json) saturate
             (steady_world WL_CONNECTED 200 "consulting 7")) power_on
    = [padRight line1 16; padRight line2 16] /\
    String.prefix "NOW: #" line1 = true.
Proof.
  destruct (serving_iff_consulting_and_positive (J := sample_json) saturate
              (steady_world WL_CONNECTED 200 "consulting 7") power_on
              eq_refl eq_refl eq_refl)
    as (line1 & line2 & Hshown & Hserving & _).
  exists line1, line2; split; [exact Hshown|].
  apply (proj2 Hserving); split; [reflexivity | reflexivity].
Defined.

Lemma token_format_witness :
  1 <= 7 /\ build_line1 "consulting" 7 = "NOW: #" ++ "00" ++ WString.of_int 7.
Proof.
  assert (H : 1 <= 7) by lia.
  split; [exact H|].
  exact (proj2 (proj1 (proj2 (proj2 (token_format 7 H))) ltac:(lia))).
Defined.

Lemma link_down_skips_network_witness :
  added (fetchAndDisplay (J := sample_json) saturate
           (steady_world WL_DISCONNECTED 200 "idle")) power_on
  = [lcd_clear; lcd_setCursor 0 0; lcd_print "WiFi Lost..."].
Proof.
  apply (link_down_skips_network (J := sample_json) saturate
           (steady_world WL_DISCONNECTED 200 "idle") power_on).
  discriminate.
Defined.

Lemma loop_polls_iff_interval_elapsed_witness :
  (to_unsigned_long (millis wrapping_world 1) - lastPollTime before_wrap)
    mod 2 ^ ULONG_BITS = 6000 /\
  loop (J := sample_json) saturate wrapping_world before_wrap =
  fetchAndDisplay (J := sample_json) saturate wrapping_world
    (polled_at 5000 before_wrap).
Proof.
  pose proof (loop_polls_iff_interval_elapsed (J := sample_json) saturate
                wrapping_world before_wrap) as (Hpoll & _ & _ & Hwrap).
  split.
  - apply (Hwrap (2 ^ 32 - 1000) 6000); [reflexivity | reflexivity |].
    unfold ULONG_BITS; lia.
  - apply Hpoll. vm_compute; discriminate.
Defined.

Lemma wait_line_truncates_witness :
  exists row0,
    shown (fetchAndDisplay (J := sample_json) saturate
             (steady_world WL_CONNECTED 200 "wait 23.9")) power_on
    = [row0; "Wait: ~23 min   "].
Proof.
  destruct (proj1 (wait_line_truncates (J := sample_json) saturate
                     (steady_world WL_CONNECTED 200 "wait 23.9") power_on
                     eq_refl eq_refl eq_refl eq_refl))
    as [row0 Hshown].
  exists row0; exact Hshown.
Defined.

(** [String(int)] prints different numbers differently. *)
Lemma digits_injective (a b : Z) :
  0 <= a -> 0 <= b -> WString.digits a = WString.digits b -> a = b.
Proof.
  intros Ha Hb E.
  destruct (digits_spec a Ha) as [[_ Va] _].
  destruct (digits_spec b Hb) as [[_ Vb] _].
  rewrite <- Va, <- Vb, E; reflexivity.
Qed.

Lemma of_int_injective (a b : Z) : WString.of_int a = WString.of_int b -> a = b.
Proof.
  assert (of_int_minus : forall m : Z,
            m < 0 -> WString.of_int m = "-" ++ WString.digits (- m)).
  { intros m Hm; unfold WString.of_int.
    destruct (Z.ltb_spec m 0); [reflexivity | lia]. }
  assert (Hsign : forall m n : Z,
            m < 0 -> 0 <= n -> WString.of_int m <> WString.of_int n).
  { intros m n Hm Hn E.
    rewrite (of_int_minus m Hm), (of_int_nonneg n Hn) in E.
    destruct (digits_spec n Hn) as [[Hall _] _].
    rewrite <- E in Hall; discriminate Hall. }
  intros E.
  destruct (Z.lt_ge_cases a 0) as [Ha|Ha]; destruct (Z.lt_ge_cases b 0) as [Hb|Hb].
  - rewrite (of_int_minus a Ha), (of_int_minus b Hb) in E.
    injection E as E.
    apply digits_injective in E; lia.
  - exfalso; exact (Hsign a b Ha Hb E).
  - exfalso; exact (Hsign b a Hb Ha (eq_sym E)).
  - rewrite (of_int_nonneg a Ha), (of_int_nonneg b Hb) in E.
    now apply digits_injective.
Qed.

Lemma append_cancel_l (s : string) :
  forall t t' : string, s ++ t = s ++ t' -> t = t'.
Proof.
  induction s as [|c s IH]; intros t t' E; [exact E|].
  cbn [String.append] in E; injection E as E; now apply IH.
Qed.

Lemma append_cancel_r (t : string) :
  forall s s' : string, s ++ t = s' ++ t -> s = s'.
Proof.
  assert (Hlen : forall s s' : string,
            s ++ t = s' ++ t -> String.length s = String.length s').
  { intros s s' E; apply (f_equal String.length) in E.
    rewrite !length_append in E; lia. }
  induction s as [|c s IH]; intros [|c' s'] E;
    try reflexivity; try (apply Hlen in E; discriminate E).
  cbn [String.append] in E; injection E as -> E.
  now rewrite (IH s' E).
Qed.

(** C8 as stated fails: a wait of 2147483647 reaches the sketch as the
    [float] 2147483648, whose truncation no [int] holds.  On a target that
    answers the cast with the smallest [int] the rows are "QUEUE IDLE" and
    the first 16 characters of "Wait: ~-2147483648 min", and whatever [int]
    a target answers with, the line built is not "Wait: ~2147483648 min". *)
Lemma wait_2147483647_is_not_truncated :
  truncate (read_estimatedWait (J := overflow_json)
              (data_of (J := overflow_json) "wait 2147483647")) = 2147483648 /\
  build_line2 indefinite
    (read_estimatedWait (J := overflow_json)
       (data_of (J := overflow_json) "wait 2147483647"))
  = "Wait: ~-2147483648 min" /\
  shown (fetchAndDisplay (J := overflow_json) indefinite
           (steady_world WL_CONNECTED 200 "wait 2147483647")) power_on
  = ["QUEUE IDLE      "; "Wait: ~-21474836"] /\
  ~ (exists minutes : Z,
       INT_MIN <= minutes <= INT_MAX /\
       build_line2 (fun _ => minutes)
         (read_estimatedWait (J := overflow_json)
            (data_of (J := overflow_json) "wait 2147483647"))
       = "Wait: ~" ++ WString.of_int 2147483648 ++ " min").
Proof.
  split; [vm_compute; reflexivity|].
  split; [vm_compute; reflexivity|].
  split; [vm_compute; reflexivity|].
  intros (minutes & Hrange & E).
  unfold build_line2, float_to_int in E.
  replace (fits_int (read_estimatedWait (J := overflow_json)
                       (data_of (J := overflow_json) "wait 2147483647")))
    with false in E by (vm_compute; reflexivity).
  apply (append_cancel_l "Wait: ~") in E.
  apply (append_cancel_r " min") in E.
  apply of_int_injective in E.
  unfold INT_MAX in Hrange; lia.
Qed.

Lemma failed_connect_halts_witness :
  setup (steady_world WL_DISCONNECTED 200 "idle") 3 power_on = (None, halted 3).
Proof.
  apply (failed_connect_halts (J := sample_json) saturate
           (steady_world WL_DISCONNECTED 200 "idle") 3).
  - intros k _; discriminate.
  - discriminate.
Defined.

Lemma waiting_count_not_shown_witness :
  shown (fetchAndDisplay (J := sample_json) saturate
           (steady_world WL_CONNECTED 200 "consulting 7")) power_on =
  shown (fetchAndDisplay (J := sample_json) saturate
           (steady_world WL_CONNECTED 200 "consulting 7, 9 waiting")) power_on.
Proof.
  apply (waiting_count_not_shown (J := sample_json) saturate
           (steady_world WL_CONNECTED 200 "consulting 7")
           (steady_world WL_CONNECTED 200 "consulting 7, 9 waiting")
           power_on power_on eq_refl eq_refl eq_refl eq_refl eq_refl eq_refl).
  intros key Hkey.
  change (lookup key
            [("current_token", JInt 7); ("estimated_wait_min", JFloat (tenths 243));
             ("waiting_count", JInt 3); ("status", JString "consulting")] =
          lookup key
            [("current_token", JInt 7); ("estimated_wait_min", JFloat (tenths 243));
             ("waiting_count", JInt 9); ("status", JString "consulting")]).
  cbn [lookup].
  destruct ("current_token" =? key)%string; [reflexivity|].
  destruct ("estimated_wait_min" =? key)%string; [reflexivity|].
  destruct (String.eqb_spec "waiting_count" key) as [E|_]; [|reflexivity].
  exfalso; apply Hkey; symmetry; exact E.
Defined.

(** * Further properties of the sketch *)

(** ** [padRight] at any width *)

(** X1.  For every length an [int] can hold from zero up, [padRight]
    returns exactly that many characters: the string followed by spaces when
    it fits, its first [length] characters when it does not. *)
Theorem padRight_exact_width (s : string) (length : Z) :
  0 <= length <= INT_MAX ->
  fitted (Z.to_nat length) s (padRight s length).
Proof.
  intros H.
  assert (Hu : 0 <= length <= UINT_MAX) by (unfold INT_MAX, UINT_MAX in *; lia).
  split; [now apply padRight_length|]; split; intros Hs.
  - now apply padRight_short.
  - now apply padRight_long.
Qed.

Lemma padRight_exact_width_witness :
  0 <= 5 <= INT_MAX /\ fitted 5 "abc" (padRight "abc" 5).
Proof.
  assert (H : 0 <= 5 <= INT_MAX) by (unfold INT_MAX; lia).
  exact (conj H (padRight_exact_width "abc" 5 H)).
Defined.

(** X2.  Padding twice to the same width is padding once: a padded line
    passes through [padRight] unchanged. *)
Theorem padRight_idempotent (s : string) (length : Z) :
  0 <= length <= INT_MAX ->
  padRight (padRight s length) length = padRight s length.
Proof.
  intros H.
  assert (Hu : 0 <= length <= UINT_MAX) by (unfold INT_MAX, UINT_MAX in *; lia).
  pose proof (padRight_length s length Hu) as Hlen.
  rewrite (padRight_short (padRight s length) length Hu) by lia.
  rewrite Hlen, Nat.sub_diag; apply append_nil_r.
Qed.

Lemma padRight_idempotent_witness :
  0 <= 4 <= INT_MAX /\
  padRight (padRight "QUEUE IDLE" 4) 4 = padRight "QUEUE IDLE" 4.
Proof.
  assert (H : 0 <= 4 <= INT_MAX) by (unfold INT_MAX; lia).
  exact (conj H (padRight_idempotent "QUEUE IDLE" 4 H)).
Defined.

(** ** Width of the two data lines *)

Lemma digits_0 : WString.digits 0 = "0".
Proof. reflexivity. Qed.

Lemma digits_length_le (n : Z) (k : nat) :
  0 <= n < 10 ^ Z.of_nat k -> (1 <= k)%nat ->
  (String.length (WString.digits n) <= k)%nat.
Proof.
  intros [Hlo Hhi] Hk.
  destruct (Z.eq_dec n 0) as [->|Hne]; [rewrite digits_0; simpl; lia|].
  destruct (digits_spec n Hlo) as (_ & Hlen & _ & Hlb).
  destruct (Hlb ltac:(lia)) as [Hlow _].
  set (l := String.length (WString.digits n)) in *.
  assert (Hlt : 10 ^ (Z.of_nat l - 1) < 10 ^ Z.of_nat k) by lia.
  apply Z.pow_lt_mono_r_iff in Hlt; lia.
Qed.

Lemma digits_length_gt (n : Z) (k : nat) :
  10 ^ Z.of_nat k <= n -> (k < String.length (WString.digits n))%nat.
Proof.
  intros Hlo.
  assert (Hpos : 0 < 10 ^ Z.of_nat k) by (apply Z.pow_pos_nonneg; lia).
  destruct (digits_spec n ltac:(lia)) as (_ & _ & Hub & _).
  set (l := String.length (WString.digits n)) in *.
  assert (Hlt : 10 ^ Z.of_nat k < 10 ^ Z.of_nat l) by lia.
  apply Z.pow_lt_mono_r_iff in Hlt; lia.
Qed.

Lemma of_int_neg (n : Z) : n < 0 -> WString.of_int n = "-" ++ WString.digits (- n).
Proof.
  intros H; unfold WString.of_int.
  destruct (Z.ltb_spec n 0); [reflexivity | lia].
Qed.

(** X3.  The first line is never cut: for every token an [int] can hold the
    built line has at most 16 characters (exactly 16 for ten-digit tokens),
    so the LCD gets it whole, followed by spaces. *)
Theorem line1_never_cut (status : string) (currentToken : Z) :
  currentToken <= INT_MAX ->
  (String.length (build_line1 status currentToken) <= 16)%nat /\
  padRight (build_line1 status currentToken) 16 =
  build_line1 status currentToken
  ++ spaces (16 - String.length (build_line1 status currentToken)).
Proof.
  intros Hmax.
  assert (Hlen : (String.length (build_line1 status currentToken) <= 16)%nat).
  { unfold build_line1.
    destruct ((status =? "consulting")%string && (0 <? currentToken)) eqn:Hc;
      [|simpl; lia].
    apply andb_true_iff in Hc; destruct Hc as [_ Hpos]; apply Z.ltb_lt in Hpos.
    rewrite of_int_nonneg by lia.
    destruct (Z.ltb_spec currentToken 10) as [H10|H10].
    - rewrite !length_append, (digits_length currentToken 0) by (simpl; lia).
      simpl; lia.
    - destruct (Z.ltb_spec currentToken 100) as [H100|H100].
      + rewrite !length_append, (digits_length currentToken 1) by (simpl; lia).
        simpl; lia.
      + rewrite length_append.
        pose proof (digits_length_le currentToken 10) as Hd.
        assert (Hb : 0 <= currentToken < 10 ^ Z.of_nat 10)
          by (unfold INT_MAX in Hmax; simpl; lia).
        specialize (Hd Hb ltac:(lia)).
        simpl String.length; lia. }
  split; [exact Hlen|].
  apply padRight_short; [unfold UINT_MAX; lia | simpl; lia].
Qed.

Lemma line1_never_cut_witness :
  2147483647 <= INT_MAX /\
  padRight (build_line1 "consulting" 2147483647) 16 =
  build_line1 "consulting" 2147483647
  ++ spaces (16 - String.length (build_line1 "consulting" 2147483647)).
Proof.
  assert (H : 2147483647 <= INT_MAX) by (unfold INT_MAX; lia).
  exact (conj H (proj2 (line1_never_cut "consulting" 2147483647 H))).
Defined.

Section More.

Context {J : ArduinoJson}.
Variable unrepresentable : float -> Z.

(** X4.  The second line holds waits of up to five characters.  For a
    truncated wait from -9999 to 99999 the LCD gets the whole line followed by
    spaces; outside that range the line is longer than 16 characters and the
    LCD gets its first 16, so that the unit " min" is cut. *)
Theorem line2_cut_beyond_five_characters (estimatedWait : float) :
  fits_int estimatedWait = true ->
  let line2 := build_line2 unrepresentable estimatedWait in
  (-9999 <= truncate estimatedWait <= 99999 ->
   (String.length line2 <= 16)%nat /\
   padRight line2 16 = line2 ++ spaces (16 - String.length line2)) /\
  (truncate estimatedWait < -9999 \/ 99999 < truncate estimatedWait ->
   (16 < String.length line2)%nat /\
   padRight line2 16 = String.substring 0 16 line2).
Proof.
  intros Hfit; cbv zeta; unfold build_line2, float_to_int; rewrite Hfit.
  set (v := truncate estimatedWait).
  assert (Hlen : String.length ("Wait: ~" ++ WString.of_int v ++ " min")
                 = (11 + String.length (WString.of_int v))%nat).
  { rewrite !length_append; simpl; lia. }
  rewrite Hlen.
  assert (H16 : 0 <= 16 <= UINT_MAX) by (unfold UINT_MAX; lia).
  split.
  - intros Hv.
    assert (Hs : (String.length (WString.of_int v) <= 5)%nat).
    { destruct (Z.lt_ge_cases v 0) as [Hneg|Hpos].
      - rewrite of_int_neg, length_append by assumption.
        pose proof (digits_length_le (- v) 4 ltac:(simpl; lia) ltac:(lia)).
        simpl String.length; lia.
      - rewrite of_int_nonneg by assumption.
        apply digits_length_le; [simpl; lia | lia]. }
    split; [lia|].
    rewrite padRight_short by (assumption || (rewrite Hlen; simpl; lia)).
    now rewrite Hlen.
  - intros Hv.
    assert (Hs : (5 < String.length (WString.of_int v))%nat).
    { destruct Hv as [Hneg|Hpos].
      - rewrite of_int_neg, length_append by lia.
        pose proof (digits_length_gt (- v) 4 ltac:(simpl; lia)).
        simpl String.length; lia.
      - rewrite of_int_nonneg by lia.
        apply (digits_length_gt v 5); simpl; lia. }
    split; [lia|].
    apply padRight_long; [assumption | rewrite Hlen; simpl; lia].
Qed.

End More.

Lemma line2_cut_beyond_five_characters_witness :
  padRight (build_line2 saturate (binary_normalize 24 128 100000 0 false)) 16
  = "Wait: ~100000 mi".
Proof.
  pose proof (line2_cut_beyond_five_characters saturate
                (binary_normalize 24 128 100000 0 false) eq_refl) as [_ Hcut].
  apply Hcut; right; reflexivity.
Defined.

(** ** One cycle *)

Section Cycle.

Context {J : ArduinoJson}.
Variable unrepresentable : float -> Z.
Variable world : World.

Local Notation run_fetchAndDisplay := (fetchAndDisplay unrepresentable world).

(** The four ways through a cycle, told apart by the link, the status code
    and the decoder. *)
Lemma fetch_cases (d : Device) :
  (WiFi_status world (status_calls d) <> WL_CONNECTED /\
   run_fetchAndDisplay d = (tt, after_link_down d)) \/
  (WiFi_status world (status_calls d) = WL_CONNECTED /\
   exists t,
     run_fetchAndDisplay d = (tt, after_request d t) /\
     (t = server_error_trace (GET world (requests d)) \/
      (exists error, t = parse_error_trace (getString world (requests d)) error) \/
      (exists line1 line2, t = frame_trace (getString world (requests d)) line1 line2))).
Proof.
  destruct (wl_status_eqb (WiFi_status world (status_calls d)) WL_CONNECTED) eqn:Hst.
  - assert (Hlink : WiFi_status world (status_calls d) = WL_CONNECTED)
      by (destruct (WiFi_status world (status_calls d)); (reflexivity || discriminate)).
    right; split; [exact Hlink|].
    destruct (Z.eq_dec (GET world (requests d)) 200) as [E|NE].
    + destruct (accepted (getString world (requests d))) eqn:Hacc.
      * eexists; split; [apply (fetch_frame unrepresentable world d Hlink E Hacc)|].
        right; right; eexists; eexists; reflexivity.
      * eexists; split; [apply (fetch_parse_error unrepresentable world d Hlink E Hacc)|].
        right; left; eexists; reflexivity.
    + eexists; split; [apply (fetch_server_error unrepresentable world d Hlink NE)|].
      left; reflexivity.
  - left.
    assert (Hlink : WiFi_status world (status_calls d) <> WL_CONNECTED)
      by (intros E; rewrite E in Hst; discriminate).
    split; [exact Hlink | apply (fetch_link_down unrepresentable world d Hlink)].
Qed.

(** X5.  Whatever the outcome, a cycle starts its LCD output by clearing the
    display and writes the first row from column 0; the second row is either
    left blank or written once, from column 0.  Nothing else reaches the
    LCD. *)
Theorem cycle_redraws_display (d : Device) :
  exists row0,
    filter is_lcd (added run_fetchAndDisplay d) =
      [lcd_clear; lcd_setCursor 0 0; lcd_print row0] \/
    exists row1,
      filter is_lcd (added run_fetchAndDisplay d) =
      [lcd_clear; lcd_setCursor 0 0; lcd_print row0;
       lcd_setCursor 0 1; lcd_print row1].
Proof.
  destruct (fetch_cases d) as [[_ E]|[_ (t & E & Ht)]].
  - rewrite (added_of_trace _ d link_down_trace) by (unfold exec; now rewrite E).
    eexists; left; reflexivity.
  - rewrite (added_of_trace _ d t) by (unfold exec; now rewrite E).
    destruct Ht as [->|[[error ->]|(line1 & line2 & ->)]].
    + eexists; right; eexists; reflexivity.
    + eexists; left; reflexivity.
    + eexists; right; eexists; reflexivity.
Qed.

Lemma well_bracketed_app (t u : list event) :
  forall open : bool,
    well_bracketed open t = true -> well_bracketed false u = true ->
    well_bracketed open (t ++ u) = true.
Proof.
  induction t as [|e t IH]; intros open Ht Hu.
  - destruct open; [discriminate Ht | exact Hu].
  - destruct e, open; cbn [well_bracketed app andb negb] in *;
      try discriminate Ht; apply IH; assumption.
Qed.

(** X6.  A cycle uses the HTTP client in order and leaves no request open:
    with the link up it begins one request, sends one [GET] and ends the
    request on every path; with the link down it makes none. *)
Theorem cycle_closes_its_request (d : Device) :
  well_bracketed false (added run_fetchAndDisplay d) = true /\
  requests (exec run_fetchAndDisplay d) =
  (if wl_status_eqb (WiFi_status world (status_calls d)) WL_CONNECTED
   then S (requests d) else requests d) /\
  List.length (filter (fun e => match e with http_GET => true | _ => false end)
                 (added run_fetchAndDisplay d)) =
  (if wl_status_eqb (WiFi_status world (status_calls d)) WL_CONNECTED
   then 1%nat else 0%nat).
Proof.
  destruct (fetch_cases d) as [[Hl E]|[Hl (t & E & Ht)]].
  - rewrite (added_of_trace _ d link_down_trace) by (unfold exec; now rewrite E).
    unfold exec; rewrite E.
    replace (wl_status_eqb (WiFi_status world (status_calls d)) WL_CONNECTED)
      with false
      by (destruct (WiFi_status world (status_calls d)); (reflexivity || congruence)).
    repeat split.
  - rewrite (added_of_trace _ d t) by (unfold exec; now rewrite E).
    unfold exec; rewrite E, Hl.
    destruct Ht as [->|[[error ->]|(line1 & line2 & ->)]]; repeat split.
Qed.

End Cycle.

(** ** Rounds of [loop] *)

Section Rounds.

Context {J : ArduinoJson}.
Variable unrepresentable : float -> Z.
Variable world : World.

Local Notation run_fetchAndDisplay := (fetchAndDisplay unrepresentable world).
Local Notation run_loop := (loop unrepresentable world).
Local Notation run_loop_forever := (loop_forever unrepresentable world).

Lemma loop_eq (d : Device) :
  run_loop d =
  if POLL_INTERVAL <=?
     ulong_sub (to_unsigned_long (millis world (millis_calls d))) (lastPollTime d)
  then run_fetchAndDisplay
         (polled_at (to_unsigned_long (millis world (millis_calls d))) d)
  else (tt, ticked d).
Proof.
  unfold loop, bind, millis_call, get_lastPollTime, set_lastPollTime, ret.
  cbn [lastPollTime status_calls millis_calls requests trace].
  change (to_unsigned_long POLL_INTERVAL) with POLL_INTERVAL.
  destruct (POLL_INTERVAL <=? _); reflexivity.
Qed.

(** What a cycle leaves alone and what it adds. *)
Lemma fetch_frame_rule (d : Device) :
  exists q t,
    (q <= 1)%nat /\ well_bracketed false t = true /\
    exec run_fetchAndDisplay d =
    {| lastPollTime := lastPollTime d; status_calls := S (status_calls d);
       millis_calls := millis_calls d; requests := requests d + q;
       trace := trace d ++ t |}.
Proof.
  destruct (fetch_cases unrepresentable world d) as [[_ E]|[_ (t & E & Ht)]];
    unfold exec; rewrite E.
  - exists 0%nat, link_down_trace; repeat split; [lia|].
    unfold after_link_down; now rewrite Nat.add_0_r.
  - exists 1%nat, t; split; [lia|]; split.
    + destruct Ht as [->|[[error ->]|(line1 & line2 & ->)]]; reflexivity.
    + unfold after_request; now rewrite Nat.add_1_r.
Qed.

Lemma loop_round (d : Device) :
  exists p q t,
    (q <= p <= 1)%nat /\ well_bracketed false t = true /\
    exec run_loop d =
    {| lastPollTime :=
         if (p =? 1)%nat then to_unsigned_long (millis world (millis_calls d))
         else lastPollTime d;
       status_calls := status_calls d + p;
       millis_calls := S (millis_calls d); requests := requests d + q;
       trace := trace d ++ t |}.
Proof.
  unfold exec; rewrite loop_eq.
  destruct (POLL_INTERVAL <=? _).
  - destruct (fetch_frame_rule
                (polled_at (to_unsigned_long (millis world (millis_calls d))) d))
      as (q & t & Hq & Ht & E).
    unfold exec in E; rewrite E.
    exists 1%nat, q, t; split; [lia|]; split; [exact Ht|].
    cbn [polled_at lastPollTime status_calls millis_calls requests trace Nat.eqb].
    now rewrite Nat.add_1_r.
  - exists 0%nat, 0%nat, []; split; [lia|]; split; [reflexivity|].
    cbn [snd ticked Nat.eqb]; now rewrite !Nat.add_0_r, app_nil_r.
Qed.

(** X7.  After a poll [lastPollTime] is the clock reading of that poll,
    whatever the fetch came to, and a round that reads the clock less than
    the interval later neither polls nor touches the display. *)
Theorem no_second_poll_within_interval (d : Device) (elapsed : Z) :
  let now := to_unsigned_long (millis world (millis_calls d)) in
  let d1 := exec run_loop d in
  POLL_INTERVAL <= ulong_sub now (lastPollTime d) ->
  millis world (S (millis_calls d)) = millis world (millis_calls d) + elapsed ->
  0 <= elapsed < POLL_INTERVAL ->
  lastPollTime d1 = now /\ run_loop d1 = (tt, ticked d1).
Proof.
  cbv zeta; intros Hdue Hclock Hel.
  set (now := to_unsigned_long (millis world (millis_calls d))) in *.
  assert (E1 : exec run_loop d = exec run_fetchAndDisplay (polled_at now d)).
  { unfold exec; rewrite loop_eq; fold now.
    destruct (Z.leb_spec POLL_INTERVAL (ulong_sub now (lastPollTime d)));
      [reflexivity | lia]. }
  destruct (fetch_frame_rule (polled_at now d)) as (q & t & _ & _ & E).
  rewrite E1, E; cbn [polled_at lastPollTime status_calls millis_calls requests trace].
  split; [reflexivity|].
  rewrite loop_eq; cbn [lastPollTime millis_calls].
  assert (Hw : ulong_sub (to_unsigned_long (millis world (S (millis_calls d)))) now
               = elapsed).
  { unfold ulong_sub, now, to_unsigned_long; rewrite Hclock.
    rewrite Zminus_mod_idemp_l, Zminus_mod_idemp_r.
    replace (millis world (millis_calls d) + elapsed - millis world (millis_calls d))
      with elapsed by lia.
    apply Z.mod_small; unfold POLL_INTERVAL, ULONG_BITS in *; lia. }
  rewrite Hw.
  destruct (Z.leb_spec POLL_INTERVAL elapsed); [lia | reflexivity].
Qed.

(** X8.  Every round reads the clock once, tests the link at most once and
    makes a request only after such a test: over any number of rounds there
    are at most as many requests as link tests and at most as many link tests
    as rounds. *)
Theorem rounds_bound_requests (rounds : nat) :
  forall d : Device,
    let d' := exec (run_loop_forever rounds) d in
    millis_calls d' = (millis_calls d + rounds)%nat /\
    (requests d' - requests d <= status_calls d' - status_calls d)%nat /\
    (status_calls d' - status_calls d <= rounds)%nat /\
    (requests d <= requests d')%nat /\ (status_calls d <= status_calls d')%nat.
Proof.
  induction rounds as [|rounds IH]; intros d; cbv zeta.
  - unfold exec; cbn [loop_forever ret snd]; lia.
  - assert (E : exec (run_loop_forever (S rounds)) d
                = exec (run_loop_forever rounds) (exec run_loop d)).
    { unfold exec; cbn [loop_forever]; unfold bind.
      destruct (run_loop d); reflexivity. }
    rewrite E.
    destruct (loop_round d) as (p & q & t & Hpq & _ & E1).
    specialize (IH (exec run_loop d)); cbv zeta in IH.
    assert (Hs : status_calls (exec run_loop d) = (status_calls d + p)%nat)
      by now rewrite E1.
    assert (Hr : requests (exec run_loop d) = (requests d + q)%nat)
      by now rewrite E1.
    assert (Hm : millis_calls (exec run_loop d) = S (millis_calls d))
      by now rewrite E1.
    rewrite Hs, Hr, Hm in IH.
    lia.
Qed.

(** Rounds keep the HTTP client in order. *)
Lemma rounds_well_bracketed (rounds : nat) :
  forall d : Device,
    well_bracketed false (trace d) = true ->
    well_bracketed false (trace (exec (run_loop_forever rounds) d)) = true.
Proof.
  induction rounds as [|rounds IH]; intros d Hd.
  - exact Hd.
  - assert (E : exec (run_loop_forever (S rounds)) d
                = exec (run_loop_forever rounds) (exec run_loop d)).
    { unfold exec; cbn [loop_forever]; unfold bind.
      destruct (run_loop d); reflexivity. }
    rewrite E; apply IH.
    destruct (loop_round d) as (p & q & t & _ & Ht & E1).
    rewrite E1; cbn [trace].
    now apply well_bracketed_app.
Qed.

End Rounds.

Lemma no_second_poll_within_interval_witness :
  lastPollTime
    (exec (loop (J := sample_json) saturate (steady_world WL_CONNECTED 200 "idle"))
       (after_ticks 5)) = 5000 /\
  loop (J := sample_json) saturate (steady_world WL_CONNECTED 200 "idle")
    (exec (loop (J := sample_json) saturate (steady_world WL_CONNECTED 200 "idle"))
       (after_ticks 5))
  = (tt, ticked
           (exec (loop (J := sample_json) saturate
                    (steady_world WL_CONNECTED 200 "idle")) (after_ticks 5))).
Proof.
  apply (no_second_poll_within_interval (J := sample_json) saturate
           (steady_world WL_CONNECTED 200 "idle") (after_ticks 5) 1000).
  - vm_compute; discriminate.
  - reflexivity.
  - unfold POLL_INTERVAL; lia.
Defined.

(** ** The schedule over several rounds *)

Section Schedule.

Context {J : ArduinoJson}.
Variable unrepresentable : float -> Z.
Variable world : World.

Local Notation run_fetchAndDisplay := (fetchAndDisplay unrepresentable world).
Local Notation run_loop := (loop unrepresentable world).
Local Notation run_loop_forever := (loop_forever unrepresentable world).


(** X17.  Until the clock first reads the interval, a device that has not
    polled yet does nothing but read the clock: no link test, no request, no
    event, so the screen [setup] left stays on the display. *)
Theorem quiet_until_first_interval (rounds : nat) :
  forall d : Device,
    lastPollTime d = 0 ->
    (forall j, (j < rounds)%nat ->
       0 <= millis world (millis_calls d + j) < POLL_INTERVAL) ->
    exec (run_loop_forever rounds) d =
    {| lastPollTime := 0; status_calls := status_calls d;
       millis_calls := millis_calls d + rounds; requests := requests d;
       trace := trace d |}.
Proof.
  induction rounds as [|rounds IH]; intros d Hlast Hearly.
  - unfold exec; cbn [loop_forever ret snd].
    rewrite Nat.add_0_r, <- Hlast; destruct d; reflexivity.
  - assert (E : exec (run_loop_forever (S rounds)) d
                = exec (run_loop_forever rounds) (exec run_loop d)).
    { unfold exec; cbn [loop_forever]; unfold bind.
      destruct (run_loop d); reflexivity. }
    assert (E1 : exec run_loop d = ticked d).
    { unfold exec; rewrite (loop_eq unrepresentable world d), Hlast.
      pose proof (Hearly 0%nat ltac:(lia)) as H0; rewrite Nat.add_0_r in H0.
      unfold ulong_sub, to_unsigned_long; rewrite Z.sub_0_r, Z.mod_mod
        by (unfold ULONG_BITS; lia).
      rewrite Z.mod_small by (unfold POLL_INTERVAL, ULONG_BITS in *; lia).
      destruct (Z.leb_spec POLL_INTERVAL (millis world (millis_calls d)));
        [lia | reflexivity]. }
    rewrite E, E1, IH.
    + cbn [ticked lastPollTime status_calls millis_calls requests trace].
      f_equal; lia.
    + exact Hlast.
    + intros j Hj; cbn [ticked millis_calls].
      replace (S (millis_calls d) + j)%nat with (millis_calls d + S j)%nat by lia.
      apply Hearly; lia.
Qed.

End Schedule.


Lemma quiet_until_first_interval_witness :
  exec (loop_forever (J := sample_json) saturate
          (steady_world WL_CONNECTED 200 "idle") 5) (after_ticks 0)
  = {| lastPollTime := 0; status_calls := 2; millis_calls := 5; requests := 0;
       trace := [] |}.
Proof.
  apply (quiet_until_first_interval (J := sample_json) saturate
           (steady_world WL_CONNECTED 200 "idle") 5 (after_ticks 0) eq_refl).
  intros j Hj; unfold steady_world, after_ticks, POLL_INTERVAL.
  cbn [millis millis_calls Nat.add]; lia.
Defined.

(** ** Start-up in any world *)

Section Startup.

Context {J : ArduinoJson}.
Variable unrepresentable : float -> Z.
Variable world : World.

Local Notation run_setup := (setup world).
Local Notation run_main := (main unrepresentable world).

(** The connect loop when the link is first seen up at the test number [k],
    or never within the thirty attempts ([k] is then the number of attempts
    left). *)
Lemma connect_while_at (k : nat) :
  forall (attempts : Z) (d : Device) (fuel : nat),
    Z.of_nat k <= 30 - attempts -> (k < fuel)%nat ->
    (forall j, (j < k)%nat ->
       WiFi_status world (status_calls d + j) <> WL_CONNECTED) ->
    (Z.of_nat k < 30 - attempts ->
       WiFi_status world (status_calls d + k) = WL_CONNECTED) ->
    connect_while world fuel attempts d =
    (attempts + Z.of_nat k,
     {| lastPollTime := lastPollTime d;
        status_calls := status_calls d + S k;
        millis_calls := millis_calls d; requests := requests d;
        trace := trace d ++ attempts_trace k |}).
Proof.
  induction k as [|k IH]; intros attempts d fuel Ha Hfuel Hdown Hup;
    (destruct fuel as [|fuel]; [lia|]);
    cbn [connect_while]; unfold bind, WiFi_status_call.
  - assert (Hc : negb (wl_status_eqb (WiFi_status world (status_calls d)) WL_CONNECTED)
                 && (attempts <? 30) = false).
    { destruct (Z.ltb_spec attempts 30) as [Hlt|Hge]; [|apply andb_false_r].
      rewrite Nat.add_0_r in Hup; rewrite Hup by lia; reflexivity. }
    rewrite Hc; unfold ret.
    cbn [attempts_trace]; rewrite app_nil_r, Nat.add_1_r, Z.add_0_r; reflexivity.
  - assert (H0 : WiFi_status world (status_calls d) <> WL_CONNECTED).
    { specialize (Hdown 0%nat ltac:(lia)); now rewrite Nat.add_0_r in Hdown. }
    replace (wl_status_eqb (WiFi_status world (status_calls d)) WL_CONNECTED)
      with false
      by (destruct (WiFi_status world (status_calls d)); (reflexivity || congruence)).
    replace (attempts <? 30) with true by (symmetry; apply Z.ltb_lt; lia).
    unfold emit; cbn [negb andb fst snd].
    rewrite (IH (attempts + 1) _ fuel ltac:(lia) ltac:(lia)).
    + cbn [lastPollTime status_calls millis_calls requests trace attempts_trace].
      rewrite <- !app_assoc; cbn [app].
      f_equal; [lia | f_equal; lia].
    + intros j Hj; cbn [status_calls].
      replace (S (status_calls d) + j)%nat with (status_calls d + S j)%nat by lia.
      apply Hdown; lia.
    + intros Hlt; cbn [status_calls].
      replace (S (status_calls d) + k)%nat with (status_calls d + S k)%nat by lia.
      apply Hup; lia.
Qed.

(** X9.  [setup] when the link is first seen up at test number [k] of the
    connect loop (or at none of its tests, [k] = 30): it has waited [k] times
    500 ms, and the one further test of line 84 alone decides.  If that test
    finds the link up, [setup] shows "WiFi Connected!" and the address, waits
    2 s and returns; if not, even though the loop had seen the link up, it
    shows "WiFi Failed!" and halts. *)
Theorem setup_verdict (k rounds : nat) :
  (k <= 30)%nat ->
  (forall j, (j < k)%nat -> WiFi_status world j <> WL_CONNECTED) ->
  ((k < 30)%nat -> WiFi_status world k = WL_CONNECTED) ->
  (WiFi_status world (S k) = WL_CONNECTED ->
   run_setup rounds power_on =
   (Some tt,
    {| lastPollTime := 0; status_calls := k + 2; millis_calls := 0; requests := 0;
       trace := welcome_trace ++ attempts_trace k
                ++ connected_trace (WiFi_localIP world) |})) /\
  (WiFi_status world (S k) <> WL_CONNECTED ->
   run_setup rounds power_on =
   (None,
    {| lastPollTime := 0; status_calls := k + 2; millis_calls := 0; requests := 0;
       trace := welcome_trace ++ attempts_trace k ++ failure_trace
                ++ repeat (delay 1000) rounds |})).
Proof.
  intros Hk Hdown Hup.
  assert (Hpre : forall st : wl_status_t,
            WiFi_status world (S k) = st ->
            run_setup rounds power_on =
            (if wl_status_eqb st WL_CONNECTED
             then
               (Some tt,
                {| lastPollTime := 0; status_calls := k + 2; millis_calls := 0;
                   requests := 0;
                   trace := welcome_trace ++ attempts_trace k
                            ++ connected_trace (WiFi_localIP world) |})
             else
               (None,
                {| lastPollTime := 0; status_calls := k + 2; millis_calls := 0;
                   requests := 0;
                   trace := welcome_trace ++ attempts_trace k ++ failure_trace
                            ++ repeat (delay 1000) rounds |}))).
  { intros st Hst; unfold setup.
    remember (connect_while world 31 0) as connect eqn:Hconnect.
    remember (halt rounds) as stop eqn:Hstop.
    unfold power_on.
    do 10 (rewrite bind_emit; cbv beta;
           cbn [lastPollTime status_calls millis_calls requests trace app]).
    unfold bind at 1; subst connect.
    rewrite (connect_while_at k 0 _ 31%nat ltac:(lia) ltac:(lia))
      by (cbn [status_calls]; assumption || (intros; apply Hup; lia)).
    unfold bind at 1; unfold WiFi_status_call.
    cbn [fst snd lastPollTime status_calls millis_calls requests trace Nat.add].
    rewrite Hst.
    destruct (wl_status_eqb st WL_CONNECTED).
    - do 7 (rewrite bind_emit; cbv beta;
            cbn [lastPollTime status_calls millis_calls requests trace]).
      unfold ret, connected_trace, welcome_trace.
      rewrite <- !app_assoc; cbn [app].
      do 2 f_equal; lia.
    - do 5 (rewrite bind_emit; cbv beta;
            cbn [lastPollTime status_calls millis_calls requests trace]).
      unfold bind, emit; subst stop.
      rewrite halt_never_returns.
      cbn [lastPollTime status_calls millis_calls requests trace].
      unfold failure_trace, welcome_trace.
      rewrite <- !app_assoc; cbn [app].
      do 2 f_equal; lia. }
  split; intros Hfinal.
  - rewrite (Hpre _ Hfinal); reflexivity.
  - rewrite (Hpre _ eq_refl).
    destruct (WiFi_status world (S k)); (reflexivity || congruence).
Qed.

(** The first test of the connect loop that finds the link up, if any. *)
Lemma first_up (n : nat) :
  exists k,
    (k <= n)%nat /\
    (forall j, (j < k)%nat -> WiFi_status world j <> WL_CONNECTED) /\
    ((k < n)%nat -> WiFi_status world k = WL_CONNECTED).
Proof.
  induction n as [|n (k & Hk & Hdown & Hup)].
  - exists 0%nat; repeat split; intros; lia.
  - destruct (Nat.eq_dec k n) as [->|Hne].
    + destruct (wl_status_eqb (WiFi_status world n) WL_CONNECTED) eqn:Hst.
      * exists n; repeat split; [lia | exact Hdown |].
        intros _; destruct (WiFi_status world n); (reflexivity || discriminate).
      * exists (S n); repeat split; [lia | | intros; lia].
        intros j Hj; destruct (Nat.eq_dec j n) as [->|Hjn]; [|apply Hdown; lia].
        intros E; rewrite E in Hst; discriminate.
    + exists k; repeat split; [lia | exact Hdown | intros _; apply Hup; lia].
Qed.

(** X10.  In every world [setup] waits for the link at most thirty times
    500 ms and tests it at most 32 times; up to its verdict it touches
    neither the clock nor the network. *)
Theorem setup_waits_at_most_30 (rounds : nat) :
  exists (k : nat) (verdict : list event),
    (k <= 30)%nat /\
    trace (exec (run_setup rounds) power_on) =
      (welcome_trace ++ attempts_trace k ++ verdict)%list /\
    (verdict = connected_trace (WiFi_localIP world) \/
     verdict = (failure_trace ++ repeat (delay 1000) rounds)%list) /\
    status_calls (exec (run_setup rounds) power_on) = (k + 2)%nat /\
    millis_calls (exec (run_setup rounds) power_on) = 0%nat /\
    no_network (trace (exec (run_setup rounds) power_on)).
Proof.
  destruct (first_up 30) as (k & Hk & Hdown & Hup).
  destruct (setup_verdict k rounds Hk Hdown Hup) as [Hyes Hno].
  assert (Hnet : forall verdict, no_network verdict ->
            no_network (welcome_trace ++ attempts_trace k ++ verdict)%list).
  { intros verdict Hv.
    apply no_network_app; [reflexivity|].
    apply no_network_app; [apply no_network_attempts | exact Hv]. }
  destruct (wl_status_eqb (WiFi_status world (S k)) WL_CONNECTED) eqn:Hst.
  - assert (Hlink : WiFi_status world (S k) = WL_CONNECTED)
      by (destruct (WiFi_status world (S k)); (reflexivity || discriminate)).
    exists k, (connected_trace (WiFi_localIP world)).
    unfold exec; rewrite (Hyes Hlink); cbn [snd trace status_calls millis_calls].
    repeat split; [lia | now left |].
    apply Hnet; reflexivity.
  - assert (Hlink : WiFi_status world (S k) <> WL_CONNECTED)
      by (intros E; rewrite E in Hst; discriminate).
    exists k, (failure_trace ++ repeat (delay 1000) rounds)%list.
    unfold exec; rewrite (Hno Hlink); cbn [snd trace status_calls millis_calls].
    repeat split; [lia | now right |].
    apply Hnet, no_network_app; [reflexivity | apply no_network_halt].
Qed.

Lemma no_network_well_bracketed (t : list event) :
  no_network t -> well_bracketed false t = true.
Proof.
  unfold no_network; induction t as [|e t IH]; intros H; [reflexivity|].
  cbn [forallb] in H; apply andb_true_iff in H; destruct H as [He Ht].
  destruct e; cbn [well_bracketed]; try discriminate He; now apply IH.
Qed.

Lemma exec_main (rounds : nat) (d : Device) :
  exec (run_main rounds) d =
  match result (run_setup rounds) d with
  | Some _ => exec (loop_forever unrepresentable world rounds) (exec (run_setup rounds) d)
  | None => exec (run_setup rounds) d
  end.
Proof.
  unfold exec, result, main, bind.
  generalize (run_setup rounds d); intros [[u|] d']; reflexivity.
Qed.

(** X11.  However the world answers and however long the device runs, it
    uses the HTTP client in order: never two requests open at once, never a
    [GET] or a body read outside a request, and no request left open at the
    end of a round. *)
Theorem main_requests_never_overlap (rounds : nat) :
  well_bracketed false (trace (exec (run_main rounds) power_on)) = true.
Proof.
  destruct (setup_waits_at_most_30 rounds)
    as (k & verdict & _ & _ & _ & _ & _ & Hnet).
  apply no_network_well_bracketed in Hnet.
  rewrite exec_main.
  destruct (result (run_setup rounds) power_on) as [u|].
  - now apply (rounds_well_bracketed unrepresentable world rounds).
  - exact Hnet.
Qed.

End Startup.

Lemma setup_verdict_witness :
  setup (late_world 3 [4%nat]) 2 power_on =
  (None,
   {| lastPollTime := 0; status_calls := 5; millis_calls := 0; requests := 0;
      trace := welcome_trace ++ attempts_trace 3 ++ failure_trace
               ++ repeat (delay 1000) 2 |}).
Proof.
  apply (setup_verdict (late_world 3 [4%nat]) 3 2).
  - lia.
  - intros j Hj; do 3 (destruct j as [|j]; [discriminate|]); lia.
  - intros _; reflexivity.
  - discriminate.
Defined.

(** * The bed trigger *)

Module BedsFacts.

Import Beds.

Lemma update_keeps_ids (key : string) (set : bed -> bed) (beds : list bed) :
  (forall row, id (set row) = id row) ->
  map id (update_where_id key set beds) = map id beds.
Proof.
  intros Hset; unfold update_where_id; rewrite map_map.
  apply map_ext; intros row.
  destruct (id row =? key)%string; [apply Hset | reflexivity].
Qed.

Lemma update_keeps_others (key : string) (set : bed -> bed) (beds : list bed) :
  (forall row, id (set row) = id row) ->
  filter (fun row => negb (id row =? key)%string) (update_where_id key set beds)
  = filter (fun row => negb (id row =? key)%string) beds.
Proof.
  intros Hset; unfold update_where_id.
  induction beds as [|row beds IH]; [reflexivity|].
  cbn [map filter]; rewrite IH.
  destruct (id row =? key)%string eqn:E.
  - now rewrite Hset, E.
  - now rewrite E.
Qed.

Lemma select_update (key : string) (set : bed -> bed) (beds : list bed) :
  (forall row, id (set row) = id row) ->
  select_id key (update_where_id key set beds)
  = option_map set (select_id key beds).
Proof.
  intros Hset; unfold select_id, update_where_id.
  induction beds as [|row beds IH]; [reflexivity|].
  cbn [map find].
  destruct (id row =? key)%string eqn:E.
  - now rewrite Hset, E.
  - now rewrite E.
Qed.

Lemma update_update (key : string) (set1 set2 : bed -> bed) (beds : list bed) :
  (forall row, id (set1 row) = id row) ->
  update_where_id key set2 (update_where_id key set1 beds)
  = update_where_id key (fun row => set2 (set1 row)) beds.
Proof.
  intros Hset; unfold update_where_id; rewrite map_map.
  apply map_ext; intros row.
  destruct (id row =? key)%string eqn:E.
  - now rewrite Hset, E.
  - now rewrite E.
Qed.

(** X12.  The trigger touches the row [bed_01] and nothing else: whatever is
    logged, the table keeps its keys in their order and every other row as it
    was, and the logged row is returned unchanged.  A status that is [NULL]
    or anything but 'occupied' or 'empty' leaves the whole table as it
    was. *)
Theorem trigger_touches_bed_01_only (now : timestamp) (NEW : log) (beds : list bed) :
  map id (on_new_log now NEW beds) = map id beds /\
  filter (fun row => negb (id row =? "bed_01")%string) (on_new_log now NEW beds)
  = filter (fun row => negb (id row =? "bed_01")%string) beds /\
  snd (sync_bed_status now NEW beds) = NEW /\
  (log_status NEW <> Some "occupied" -> log_status NEW <> Some "empty" ->
   on_new_log now NEW beds = beds).
Proof.
  unfold on_new_log, sync_bed_status.
  destruct (text_is (log_status NEW) "occupied") eqn:Ho;
    [|destruct (text_is (log_status NEW) "empty") eqn:He]; cbn [fst snd].
  - split; [now apply update_keeps_ids|].
    split; [now apply update_keeps_others|].
    split; [reflexivity|].
    intros Hn _; exfalso; apply Hn.
    destruct (log_status NEW) as [s|]; [|discriminate Ho].
    apply String.eqb_eq in Ho; now subst s.
  - split; [now apply update_keeps_ids|].
    split; [now apply update_keeps_others|].
    split; [reflexivity|].
    intros _ Hn; exfalso; apply Hn.
    destruct (log_status NEW) as [s|]; [|discriminate He].
    apply String.eqb_eq in He; now subst s.
  - repeat split.
Qed.

(** X13.  An 'occupied' log followed by an 'empty' log records the stay: the
    row [bed_01] ends up 'empty' with the weight of the second log, allotted
    at the time of the first and vacated and updated at the time of the
    second. *)
Theorem occupied_then_empty_records_stay
  (t1 t2 : timestamp) (w1 w2 : option double) (beds : list bed) (row : bed) :
  select_id "bed_01" beds = Some row ->
  select_id "bed_01"
    (on_new_log t2 {| log_weight := w2; log_status := Some "empty" |}
       (on_new_log t1 {| log_weight := w1; log_status := Some "occupied" |} beds))
  = Some {| id := id row; status := Some "empty"; weight := w2;
            allotted_at := Some t1; vacated_at := Some t2;
            updated_at := Some t2 |}.
Proof.
  intros Hrow; unfold on_new_log, sync_bed_status; cbn [text_is log_status fst].
  change ("occupied" =? "occupied")%string with true.
  change ("empty" =? "occupied")%string with false.
  change ("empty" =? "empty")%string with true.
  cbn [fst log_weight].
  rewrite !select_update by reflexivity.
  now rewrite Hrow.
Qed.

(** X14.  An 'occupied' log overwrites whatever the log before it wrote:
    the table after both is the table after the 'occupied' log alone.  So a
    second 'occupied' reading restarts [allotted_at]. *)
Theorem occupied_overwrites_previous_log
  (t1 t2 : timestamp) (previous NEW : log) (beds : list bed) :
  log_status NEW = Some "occupied" ->
  on_new_log t2 NEW (on_new_log t1 previous beds) = on_new_log t2 NEW beds.
Proof.
  intros Hocc; unfold on_new_log, sync_bed_status; rewrite Hocc.
  cbn [text_is]; change ("occupied" =? "occupied")%string with true.
  destruct (text_is (log_status previous) "occupied");
    [|destruct (text_is (log_status previous) "empty")]; cbn [fst];
    try reflexivity; now rewrite update_update.
Qed.

(** X15.  Seeding inserts [bed_01] once and never overwrites it: seeding a
    seeded table changes nothing, a table that has the row is left as it is,
    and after seeding every 'occupied' log shows in the row. *)
Theorem seed_once (t0 t1 now : timestamp) (w : option double) (beds : list bed) :
  seed t1 (seed t0 beds) = seed t0 beds /\
  (forall row, select_id "bed_01" beds = Some row -> seed t0 beds = beds) /\
  exists row,
    select_id "bed_01" (seed t0 beds) = Some row /\ id row = "bed_01" /\
    select_id "bed_01"
      (on_new_log now {| log_weight := w; log_status := Some "occupied" |}
         (seed t0 beds))
    = Some {| id := "bed_01"; status := Some "occupied"; weight := w;
              allotted_at := Some now; vacated_at := None;
              updated_at := Some now |}.
Proof.
  assert (Hfind : forall l : list bed,
            existsb (fun row => (id row =? "bed_01")%string) l = true ->
            exists row, select_id "bed_01" l = Some row /\ id row = "bed_01").
  { unfold select_id; induction l as [|r l IH]; cbn [existsb find]; [discriminate|].
    destruct (id r =? "bed_01")%string eqn:E; cbn [orb].
    - intros _; exists r; split; [reflexivity | now apply String.eqb_eq].
    - exact IH. }
  assert (Hseeded : existsb (fun row => (id row =? "bed_01")%string) (seed t0 beds)
                    = true).
  { unfold seed.
    destruct (existsb (fun row => (id row =? "bed_01")%string) beds) eqn:E;
      [exact E|].
    rewrite existsb_app, E; reflexivity. }
  split; [|split].
  - unfold seed at 1; now rewrite Hseeded.
  - intros row Hrow; unfold seed.
    replace (existsb (fun r => (id r =? "bed_01")%string) beds) with true;
      [reflexivity|].
    symmetry; apply existsb_exists; exists row.
    unfold select_id in Hrow; apply find_some in Hrow; exact Hrow.
  - destruct (Hfind _ Hseeded) as (row & Hrow & Hid).
    exists row; split; [exact Hrow|]; split; [exact Hid|].
    unfold on_new_log, sync_bed_status; cbn [text_is log_status fst log_weight].
    change ("occupied" =? "occupied")%string with true; cbn [fst].
    rewrite select_update by reflexivity.
    now rewrite Hrow; cbn [option_map]; rewrite Hid.
Qed.

End BedsFacts.

Lemma occupied_then_empty_records_stay_witness :
  Beds.select_id "bed_01"
    (Beds.on_new_log 200
       {| Beds.log_weight := Some (tenths 100); Beds.log_status := Some "empty" |}
       (Beds.on_new_log 100
          {| Beds.log_weight := Some (tenths 1205);
             Beds.log_status := Some "occupied" |}
          (Beds.seed 0 [])))
  = Some {| Beds.id := "bed_01"; Beds.status := Some "empty";
            Beds.weight := Some (tenths 100);
            Beds.allotted_at := Some 100; Beds.vacated_at := Some 200;
            Beds.updated_at := Some 200 |}.
Proof.
  exact (BedsFacts.occupied_then_empty_records_stay 100 200
           (Some (tenths 1205)) (Some (tenths 100)) (Beds.seed 0 []) _ eq_refl).
Defined.

Lemma occupied_overwrites_previous_log_witness :
  Beds.on_new_log 300
    {| Beds.log_weight := Some (tenths 800); Beds.log_status := Some "occupied" |}
    (Beds.on_new_log 100
       {| Beds.log_weight := Some (tenths 1205);
          Beds.log_status := Some "occupied" |}
       (Beds.seed 0 []))
  = Beds.on_new_log 300
      {| Beds.log_weight := Some (tenths 800); Beds.log_status := Some "occupied" |}
      (Beds.seed 0 []).
Proof.
  exact (BedsFacts.occupied_overwrites_previous_log 100 300
           {| Beds.log_weight := Some (tenths 1205);
              Beds.log_status := Some "occupied" |}
           {| Beds.log_weight := Some (tenths 800);
              Beds.log_status := Some "occupied" |}
           (Beds.seed 0 []) eq_refl).
Defined.

Lemma trigger_touches_bed_01_only_witness :
  Beds.on_new_log 100
    {| Beds.log_weight := Some (tenths 1205); Beds.log_status := Some "Occupied" |}
    (Beds.seed 0 [])
  = Beds.seed 0 [].
Proof.
  apply (BedsFacts.trigger_touches_bed_01_only 100
           {| Beds.log_weight := Some (tenths 1205);
              Beds.log_status := Some "Occupied" |}
           (Beds.seed 0 [])); discriminate.
Defined.

Lemma seed_once_witness :
  Beds.seed 50
    [{| Beds.id := "bed_01"; Beds.status := Some "occupied";
        Beds.weight := Some (tenths 1205);
        Beds.allotted_at := Some 10; Beds.vacated_at := None;
        Beds.updated_at := Some 10 |}]
  = [{| Beds.id := "bed_01"; Beds.status := Some "occupied";
        Beds.weight := Some (tenths 1205);
        Beds.allotted_at := Some 10; Beds.vacated_at := None;
        Beds.updated_at := Some 10 |}].
Proof.
  exact (proj1 (proj2 (BedsFacts.seed_once 50 60 70 None
                         [{| Beds.id := "bed_01"; Beds.status := Some "occupied";
                             Beds.weight := Some (tenths 1205);
                             Beds.allotted_at := Some 10; Beds.vacated_at := None;
                             Beds.updated_at := Some 10 |}]))
           _ eq_refl).
Defined.
